(** * Diabetes classification scripts: training and scoring

    A shallow embedding of the three scripts of the repository

    - [diabetes_service/score_diabetes.py]            (module [Service]),
    - [diabetes_training_from_datastore/diabetes_training.py]
    - [diabetes_training_tree/diabetes_training.py]   (module [Training]),

    Every script is glue around pandas, numpy, scikit-learn, joblib,
    matplotlib and the run-tracking SDK.  The library entry points are
    kept abstract (fields of a class); what the scripts themselves do --
    the order of the calls, which value flows into which call, Python's
    own indexing, division and dictionary lookup, and which exception
    escapes -- is modelled as written.  Floats are identified with the
    rationals they denote ([Q]); NaN and infinities are outside the
    model. *)

From stdpp Require Import gmap strings list.
From Stdlib Require Import ZArith QArith Qround.

Set Warnings "-register-all".
Set Default Proof Using "Type".

Open Scope Z_scope.

(** ** Python exceptions and results *)

Inductive exn : Type :=
| JSONDecodeError
| KeyError (key : string)
| TypeError
| IndexError
| NameError (name : string)
| ZeroDivisionError
| ValueError
| LibraryError (origin : string).

Inductive outcome (A : Type) : Type :=
| Ok (a : A)
| Raise (e : exn).
Arguments Ok {A} a.
Arguments Raise {A} e.

(** A computation threads the interpreter's world and may raise; the
    world reached when the exception escapes is kept. *)
Definition comp (W A : Type) : Type := W → outcome A * W.

Definition ret {W A} (a : A) : comp W A := λ w, (Ok a, w).

Definition bind {W A B} (m : comp W A) (k : A → comp W B) : comp W B :=
  λ w, match m w with
       | (Ok a, w') => k a w'
       | (Raise e, w') => (Raise e, w')
       end.

Definition lift {W A} (r : outcome A) : comp W A := λ w, (r, w).

Definition raise {W A} (e : exn) : comp W A := λ w, (Raise e, w).

Definition modify {W} (f : W → W) : comp W unit := λ w, (Ok tt, f w).

Definition gets {W A} (f : W → A) : comp W A := λ w, (Ok (f w), w).

Declare Scope comp_scope.
Delimit Scope comp_scope with comp.
Notation "'let!' x ':=' m 'in' k" := (bind m (λ x, k))
  (at level 10, x pattern, m at level 100, k at level 200) : comp_scope.
Notation "m ';;' k" := (bind m (λ _, k))
  (at level 100, k at level 200, right associativity) : comp_scope.

(** [for x in xs: body(x)] with an accumulator local to the loop. *)
Fixpoint for_each {W A B} (xs : list A) (body : B → A → comp W B) (acc : B)
  : comp W B :=
  match xs with
  | [] => ret acc
  | x :: xs' => bind (body acc x) (for_each xs' body)
  end.

(** ** Python built-ins used by the scripts *)

(** [l[i]] on a Python list: a negative index counts from the end, and an
    index outside [-len, len) raises IndexError. *)
Definition list_getitem {A} (l : list A) (i : Z) : outcome A :=
  let n := Z.of_nat (length l) in
  let j := if i <? 0 then i + n else i in
  if (j <? 0) || (n <=? j) then Raise IndexError
  else match l !! Z.to_nat j with
       | Some x => Ok x
       | None => Raise IndexError
       end.

(** [a / b] on numbers. *)
Definition truediv (a b : Q) : outcome Q :=
  if Qeq_bool b 0 then Raise ZeroDivisionError else Ok (a / b)%Q.

(** Values produced by [json.loads] and accepted by [json.dumps]. *)
Inductive json : Type :=
| JNull
| JBool (b : bool)
| JNum (q : Q)
| JStr (s : string)
| JList (l : list json)
| JDict (d : gmap string json).

(** [v[k]] with a string key [k]. *)
Definition getitem (v : json) (k : string) : outcome json :=
  match v with
  | JDict d => match d !! k with
               | Some x => Ok x
               | None => Raise (KeyError k)
               end
  | _ => Raise TypeError
  end.

(** ** The scoring service: score_diabetes.py *)

Module Service.

(** The libraries the service calls into. *)
Class Libs : Type := {
  estimator : Type;                 (* whatever joblib.load returns *)
  ndarray : Type;
  get_model_path : string → outcome string;
  joblib_load : string → outcome estimator;
  json_loads : string → outcome json;
  json_dumps : json → string;
  np_array : json → outcome ndarray;
  predict : estimator → ndarray → outcome (list Z);
  str_data : json → string;
  str_predictions : list Z → string;
}.

Section Service.
Context `{L : Libs}.

(** Module-level state: the global [model] (unbound until [init] ran)
    and what has been printed. *)
Record world : Type := World {
  model : option estimator;
  stdout : list string;
}.

Definition set_model (m : estimator) (w : world) : world :=
  {| model := Some m; stdout := stdout w |}.

Definition print (line : string) : comp world unit :=
  modify (λ w, {| model := model w; stdout := stdout w ++ [line] |}).

(** Reading the global name [model]. *)
Definition global_model : comp world estimator :=
  λ w, match model w with
       | Some m => (Ok m, w)
       | None => (Raise (NameError "model"), w)
       end.

Definition init : comp world unit :=
  (let! model_path := lift (get_model_path "diabetes_model") in
   let! m := lift (joblib_load model_path) in
   modify (set_model m))%comp.

Definition classnames : list string := ["not-diabetic"; "diabetic"].

Definition run (raw_data : string) : comp world string :=
  (let! request := lift (json_loads raw_data) in
   let! data := lift (getitem request "data") in
   let! np_data := lift (np_array data) in
   let! m := global_model in
   let! predictions := lift (predict m np_data) in
   let log_text :=
     "Data:" +:+ str_data data +:+ " - Predictions:"
       +:+ str_predictions predictions in
   print log_text;;
   let! predicted_classes :=
     for_each predictions
       (λ acc prediction,
          let! c := lift (list_getitem classnames prediction) in
          ret (acc ++ [c]))
       [] in
   ret (json_dumps (JList (JStr <$> predicted_classes))))%comp.

(** The body of the loop of [run], and the class name the lookup yields
    for a label it accepts (0, 1, and -1, -2 counted from the end). *)
Definition labelled (acc : list string) (prediction : Z)
  : comp world (list string) :=
  (let! c := lift (list_getitem classnames prediction) in ret (acc ++ [c]))%comp.

Definition wrapped (p : Z) : string :=
  if (p =? 0) || (p =? -2) then "not-diabetic" else "diabetic".

(** The ways a request can be bad, each with the exception the library
    (or the dictionary lookup) raises for it. *)
Inductive bad_request (w : world) (raw_data : string) : exn → Prop :=
| not_json e :
    json_loads raw_data = Raise e →
    bad_request w raw_data e
| no_data_key d :
    json_loads raw_data = Ok (JDict d) →
    d !! "data" = None →
    bad_request w raw_data (KeyError "data")
| not_an_object request :
    json_loads raw_data = Ok request →
    (∀ d, request ≠ JDict d) →
    bad_request w raw_data TypeError
| not_an_array request data e :
    json_loads raw_data = Ok request →
    getitem request "data" = Ok data →
    np_array data = Raise e →
    bad_request w raw_data e
| not_scorable request data np_data m e :
    json_loads raw_data = Ok request →
    getitem request "data" = Ok data →
    np_array data = Ok np_data →
    model w = Some m →
    predict m np_data = Raise e →
    bad_request w raw_data e.

(** The line [run] prints once the model has scored the request. *)
Definition log_line (data : json) (predictions : list Z) : string :=
  "Data:" +:+ str_data data +:+ " - Predictions:" +:+ str_predictions predictions.

End Service.

(** *** A small concrete instance, to run the service on *)

Definition dq : string :=
  String (Ascii.Ascii false true false false false true false false) EmptyString.

Definition toy_request : string :=
  "{" +:+ dq +:+ "data" +:+ dq +:+ ": [[1, 85], [6, 148]]}".

Definition toy_rows : list json :=
  [JList [JNum 1; JNum 85]; JList [JNum 6; JNum 148]].

Definition toy_loads (s : string) : outcome json :=
  if String.eqb s toy_request then Ok (JDict {[ "data" := JList toy_rows ]})
  else if String.eqb s "{}" then Ok (JDict ∅)
  else Raise JSONDecodeError.

Definition toy_dumps (v : json) : string :=
  match v with
  | JList l =>
      "[" +:+ String.concat ", "
                (map (λ x, match x with
                           | JStr s => dq +:+ s +:+ dq
                           | _ => "null"
                           end) l) +:+ "]"
  | _ => "null"
  end.

Definition toy_row (v : json) : list Q :=
  match v with
  | JList cells => (λ c, match c with JNum q => q | _ => 0%Q end) <$> cells
  | _ => []
  end.

Definition toy_array (v : json) : outcome (list (list Q)) :=
  match v with
  | JList rows => Ok (toy_row <$> rows)
  | _ => Raise ValueError
  end.

(** A toy model is a rule from a feature row to a label. *)
Definition glucose_rule (row : list Q) : Z :=
  if Qle_bool 100 (nth 1 row 0%Q) then 1 else 0.

Definition three_class_rule (row : list Q) : Z :=
  if Qle_bool 100 (nth 1 row 0%Q) then 2 else 0.

Definition toy_libs : Libs := {|
  estimator := list Q → Z;
  ndarray := list (list Q);
  get_model_path := λ name, Ok ("azureml-models/" +:+ name);
  joblib_load := λ _, Ok glucose_rule;
  json_loads := toy_loads;
  json_dumps := toy_dumps;
  np_array := toy_array;
  predict := λ m rows, Ok (m <$> rows);
  str_data := λ _, "<data>";
  str_predictions := λ _, "<predictions>";
|}.

Definition toy_world (m : list Q → Z) : @world toy_libs :=
  @World toy_libs (Some m) [].

(** The same libraries with a model file that cannot be loaded. *)
Definition toy_libs_unloadable : Libs := {|
  estimator := list Q → Z;
  ndarray := list (list Q);
  get_model_path := λ name, Ok ("azureml-models/" +:+ name);
  joblib_load := λ _, Raise (LibraryError "joblib.load");
  json_loads := toy_loads;
  json_dumps := toy_dumps;
  np_array := toy_array;
  predict := λ m rows, Ok (m <$> rows);
  str_data := λ _, "<data>";
  str_predictions := λ _, "<predictions>";
|}.

(** A service on which [init] has not run. *)
Definition toy_fresh_world (L : Libs) : @world L := @World L None [].

End Service.

(** ** The training scripts *)

Module Training.

Definition vector : Type := list Q.
Definition matrix : Type := list (list Q).

(** A pandas dataframe of numeric cells: the column labels, and one list
    of cells per record, in column order. *)
Record frame : Type := Frame {
  columns : list string;
  records : list (list Q);
}.

Fixpoint index_of (c : string) (cols : list string) : option nat :=
  match cols with
  | [] => None
  | c' :: cols' => if String.eqb c c' then Some O else S <$> index_of c cols'
  end.

Definition cell (j : nat) (record : list Q) : Q := nth j record 0%Q.

Definition column_index (df : frame) (c : string) : outcome nat :=
  match index_of c (columns df) with
  | Some j => Ok j
  | None => Raise (KeyError c)
  end.

Fixpoint column_indices (df : frame) (cs : list string) : outcome (list nat) :=
  match cs with
  | [] => Ok []
  | c :: cs' =>
      match column_index df c with
      | Raise e => Raise e
      | Ok j => match column_indices df cs' with
                | Raise e => Raise e
                | Ok js => Ok (j :: js)
                end
      end
  end.

(** [df[[c1, ..., ck]].values] *)
Definition values_of_columns (df : frame) (cs : list string) : outcome matrix :=
  match column_indices df cs with
  | Raise e => Raise e
  | Ok js => Ok ((λ r, (λ j, cell j r) <$> js) <$> records df)
  end.

(** [df[c].values] *)
Definition values_of_column (df : frame) (c : string) : outcome vector :=
  match column_index df c with
  | Raise e => Raise e
  | Ok j => Ok (cell j <$> records df)
  end.

(** Column [c] sits at position [j], and nowhere before it. *)
Definition first_at (cols : list string) (c : string) (j : nat) : Prop :=
  cols !! j = Some c ∧ ∀ i, (i < j)%nat → cols !! i ≠ Some c.

(** The cell of a record under the column labelled [c]. *)
Definition at_column (df : frame) (c : string) (record : list Q) : Q :=
  match index_of c (columns df) with
  | Some j => cell j record
  | None => 0%Q
  end.

(** [a == b] on two one-dimensional arrays.  The libraries hand the
    scripts arrays of one length; on other shapes numpy's answer depends
    on its version, and the model raises. *)
Definition np_equal (a b : vector) : outcome (list bool) :=
  if Nat.eqb (length a) (length b)
  then Ok (zip_with Qeq_bool a b)
  else Raise ValueError.

Definition count_true (bs : list bool) : nat := length (filter (λ b, b = true) bs).

(** [np.average] of a boolean array: the share of [True] entries (on an
    empty array numpy yields nan, outside the model; here [0 / 0]). *)
Definition np_average (bs : list bool) : Q :=
  (inject_Z (Z.of_nat (count_true bs)) / inject_Z (Z.of_nat (length bs)))%Q.

(** The number of rows on which prediction and truth are equal numbers. *)
Definition agreeing_rows (y_hat y_test : vector) : nat :=
  length (filter (λ pt, Qeq_bool pt.1 pt.2 = true) (zip y_hat y_test)).

(** [np.float] is the built-in [float]; on a float it is the identity. *)
Definition np_float (x : Q) : Q := x.

(** [scores[:,1]] *)
Fixpoint column1 (scores : matrix) : outcome vector :=
  match scores with
  | [] => Ok []
  | row :: rest =>
      match row !! 1%nat with
      | None => Raise IndexError
      | Some x => match column1 rest with
                  | Raise e => Raise e
                  | Ok xs => Ok (x :: xs)
                  end
      end
  end.

(** Unfitted estimators, as the scripts construct them. *)
Inductive estimator : Type :=
| LogisticRegression (C : Q) (solver : string)
| DecisionTreeClassifier.

(** A matplotlib figure. *)
Record figure : Type := Figure {
  figsize : Q * Q;
  lines : list (vector * vector * option string);
  xlabel : string;
  ylabel : string;
  title : string;
}.

Definition new_figure (size : Q * Q) : figure :=
  {| figsize := size; lines := []; xlabel := ""; ylabel := ""; title := "" |}.

(** Arguments of [print]. *)
Inductive pyobj : Type :=
| PStr (s : string)
| PNum (q : Q)
| PNone.

(** Flags present on the command line, already converted by argparse. *)
Record cli : Type := Cli {
  cli_regularization : option Q;
  cli_data_folder : option string;
}.

Record namespace : Type := Namespace {
  reg_rate : Q;
  data_folder : option string;
}.

(** The libraries and the platform the training scripts call into. *)
Class Platform : Type := {
  clf : Type;                       (* a fitted classifier *)
  rng : Type;                       (* a numpy random state *)
  dataset : Type;                   (* a registered dataset handle *)
  os_listdir : option string → outcome (list string);
  os_path_join : string → string → string;
  pd_read_csv : string → outcome frame;
  pd_concat : list frame → outcome frame;
  run_input_datasets : gmap string dataset;
  to_pandas_dataframe : dataset → outcome frame;
  RandomState : Z → rng;
  sk_split : rng → Q → matrix → vector
             → outcome (matrix * matrix * vector * vector);
  sk_fit : estimator → rng → matrix → vector → outcome clf;
  sk_predict : clf → matrix → outcome vector;
  sk_predict_proba : clf → matrix → outcome matrix;
  sk_roc_auc_score : vector → vector → outcome Q;
  sk_roc_curve : vector → vector → outcome (vector * vector * vector);
  str_float : Q → string;
  os_makedirs : string → outcome unit;
  joblib_dump : clf → string → outcome unit;
  run_complete : outcome unit;
}.

Section Scripts.
Context `{P : Platform}.

(** What a script does to the outside, in the order it happens. *)
Inductive event : Type :=
| EvParseArgs (argv : cli)
| EvGetContext
| EvPrint (args : list pyobj)
| EvListdir (folder : option string)
| EvReadCsv (path : string)
| EvConcat (frames : list frame)
| EvToPandas (name : string)
| EvSplit (X : matrix) (y : vector) (test_size : Q) (random_state : option Z)
| EvFit (est : estimator) (X_train : matrix) (y_train : vector)
| EvPredict (m : clf) (X : matrix)
| EvAverage (bs : list bool)
| EvPredictProba (m : clf) (X : matrix)
| EvRocAucScore (y_true y_score : vector)
| EvRocCurve (y_true y_score : vector)
| EvFigure (size : Q * Q)
| EvPlot (xs ys : vector) (fmt : option string)
| EvXlabel (s : string)
| EvYlabel (s : string)
| EvTitle (s : string)
| EvLogImage (name : string) (plot : figure)
| EvShow
| EvLog (name : string) (value : Q)
| EvMakedirs (path : string)
| EvDump (value : clf) (filename : string)
| EvComplete.

(** The world of a training run.  [figures] holds the figure objects and
    [gcf] the handle of pyplot's current one: a handle names a shared,
    mutable figure. *)
Record world : Type := World {
  trace : list event;
  global_rng : rng;
  dirs : gset string;
  files : gmap string clf;
  scalars : list (string * Q);
  images : list (string * figure);
  figures : list figure;
  gcf : option nat;
  completed : bool;
}.

Definition emit (e : event) : comp world unit :=
  modify (λ w, {| trace := trace w ++ [e]; global_rng := global_rng w;
                  dirs := dirs w; files := files w; scalars := scalars w;
                  images := images w; figures := figures w; gcf := gcf w;
                  completed := completed w |}).

(** *** argparse, os, pandas *)

Definition parse_args (argv : cli) : comp world namespace :=
  (emit (EvParseArgs argv);;
   ret {| reg_rate := default (1 # 100)%Q (cli_regularization argv);
          data_folder := cli_data_folder argv |})%comp.

Definition get_context : comp world unit := emit EvGetContext.

Definition print (args : list pyobj) : comp world unit := emit (EvPrint args).

Definition pyobj_of_folder (folder : option string) : pyobj :=
  match folder with Some s => PStr s | None => PNone end.

Definition listdir (folder : option string) : comp world (list string) :=
  (emit (EvListdir folder);; lift (os_listdir folder))%comp.

(** [os.path.join(folder, name)]; a [None] folder is a TypeError. *)
Definition path_join (folder : option string) (name : string) : outcome string :=
  match folder with
  | Some d => Ok (os_path_join d name)
  | None => Raise TypeError
  end.

Definition read_csv (path : string) : comp world frame :=
  (emit (EvReadCsv path);; lift (pd_read_csv path))%comp.

Definition concat (frames : list frame) : comp world frame :=
  (emit (EvConcat frames);; lift (pd_concat frames))%comp.

(** [run.input_datasets[name].to_pandas_dataframe()] *)
Definition input_dataframe (name : string) : comp world frame :=
  match run_input_datasets !! name with
  | None => raise (KeyError name)
  | Some ds => (emit (EvToPandas name);; lift (to_pandas_dataframe ds))%comp
  end.

(** *** scikit-learn *)

(** [train_test_split(X, y, test_size=..., random_state=...)]: an integer
    seed makes a fresh generator, [None] uses numpy's global one. *)
Definition train_test_split (X : matrix) (y : vector) (test_size : Q)
    (random_state : option Z)
  : comp world (matrix * matrix * vector * vector) :=
  (emit (EvSplit X y test_size random_state);;
   let! g := gets global_rng in
   let r := match random_state with Some seed => RandomState seed | None => g end in
   lift (sk_split r test_size X y))%comp.

(** [est.fit(X, y)]; the estimators are built without [random_state], so
    fitting draws on numpy's global generator. *)
Definition fit (est : estimator) (X : matrix) (y : vector) : comp world clf :=
  (emit (EvFit est X y);;
   let! g := gets global_rng in
   lift (sk_fit est g X y))%comp.

Definition predict (m : clf) (X : matrix) : comp world vector :=
  (emit (EvPredict m X);; lift (sk_predict m X))%comp.

Definition predict_proba (m : clf) (X : matrix) : comp world matrix :=
  (emit (EvPredictProba m X);; lift (sk_predict_proba m X))%comp.

Definition average (bs : list bool) : comp world Q :=
  (emit (EvAverage bs);; ret (np_average bs))%comp.

Definition roc_auc_score (y_true y_score : vector) : comp world Q :=
  (emit (EvRocAucScore y_true y_score);; lift (sk_roc_auc_score y_true y_score))%comp.

Definition roc_curve (y_true y_score : vector)
  : comp world (vector * vector * vector) :=
  (emit (EvRocCurve y_true y_score);; lift (sk_roc_curve y_true y_score))%comp.

(** *** matplotlib.pyplot *)

Definition set_figures (fs : list figure) (h : option nat) (w : world) : world :=
  {| trace := trace w; global_rng := global_rng w; dirs := dirs w;
     files := files w; scalars := scalars w; images := images w;
     figures := fs; gcf := h; completed := completed w |}.

(** [plt.figure(figsize=...)]: a new figure, which becomes the current one. *)
Definition plt_figure (size : Q * Q) : comp world nat :=
  (emit (EvFigure size);;
   let! fs := gets figures in
   modify (set_figures (fs ++ [new_figure size]) (Some (length fs)));;
   ret (length fs))%comp.

(** The current figure; pyplot makes one of the default size if none is open. *)
Definition current_figure : comp world nat :=
  (let! h := gets gcf in
   match h with
   | Some h => ret h
   | None =>
       let! fs := gets figures in
       modify (set_figures (fs ++ [new_figure (32 # 5, 24 # 5)%Q]) (Some (length fs)));;
       ret (length fs)
   end)%comp.

Definition on_current_figure (f : figure → figure) : comp world unit :=
  (let! h := current_figure in
   modify (λ w, set_figures (alter f h (figures w)) (gcf w) w))%comp.

Definition add_line (xs ys : vector) (fmt : option string) (fig : figure) : figure :=
  {| figsize := figsize fig; lines := lines fig ++ [(xs, ys, fmt)];
     xlabel := xlabel fig; ylabel := ylabel fig; title := title fig |}.

Definition set_xlabel (s : string) (fig : figure) : figure :=
  {| figsize := figsize fig; lines := lines fig;
     xlabel := s; ylabel := ylabel fig; title := title fig |}.

Definition set_ylabel (s : string) (fig : figure) : figure :=
  {| figsize := figsize fig; lines := lines fig;
     xlabel := xlabel fig; ylabel := s; title := title fig |}.

Definition set_title (s : string) (fig : figure) : figure :=
  {| figsize := figsize fig; lines := lines fig;
     xlabel := xlabel fig; ylabel := ylabel fig; title := s |}.

Definition plt_plot (xs ys : vector) (fmt : option string) : comp world unit :=
  (emit (EvPlot xs ys fmt);; on_current_figure (add_line xs ys fmt))%comp.

Definition plt_xlabel (s : string) : comp world unit :=
  (emit (EvXlabel s);; on_current_figure (set_xlabel s))%comp.

Definition plt_ylabel (s : string) : comp world unit :=
  (emit (EvYlabel s);; on_current_figure (set_ylabel s))%comp.

Definition plt_title (s : string) : comp world unit :=
  (emit (EvTitle s);; on_current_figure (set_title s))%comp.

Definition plt_show : comp world unit := emit EvShow.

(** *** The run context, os.makedirs, joblib.dump *)

(** [run.log(name, value)] *)
Definition log (name : string) (value : Q) : comp world unit :=
  (emit (EvLog name value);;
   modify (λ w, {| trace := trace w; global_rng := global_rng w; dirs := dirs w;
                   files := files w; scalars := scalars w ++ [(name, value)];
                   images := images w; figures := figures w; gcf := gcf w;
                   completed := completed w |}))%comp.

(** [run.log_image(name=..., plot=fig)]: the figure as it is at the call. *)
Definition log_image (name : string) (fig : nat) : comp world unit :=
  (let! fs := gets figures in
   match fs !! fig with
   | None => raise (LibraryError "log_image")
   | Some plot =>
       emit (EvLogImage name plot);;
       modify (λ w, {| trace := trace w; global_rng := global_rng w; dirs := dirs w;
                       files := files w; scalars := scalars w;
                       images := images w ++ [(name, plot)];
                       figures := figures w; gcf := gcf w;
                       completed := completed w |})
   end)%comp.

(** [os.makedirs(path, exist_ok=True)]: the folder exists once the call
    has returned. *)
Definition makedirs (path : string) : comp world unit :=
  (emit (EvMakedirs path);;
   lift (os_makedirs path);;
   modify (λ w, {| trace := trace w; global_rng := global_rng w;
                   dirs := {[ path ]} ∪ dirs w;
                   files := files w; scalars := scalars w; images := images w;
                   figures := figures w; gcf := gcf w;
                   completed := completed w |}))%comp.

(** [joblib.dump(value=..., filename=...)]: once the call has returned
    the file holds the pickled value. *)
Definition dump (value : clf) (filename : string) : comp world unit :=
  (emit (EvDump value filename);;
   lift (joblib_dump value filename);;
   modify (λ w, {| trace := trace w; global_rng := global_rng w; dirs := dirs w;
                   files := <[ filename := value ]> (files w);
                   scalars := scalars w; images := images w;
                   figures := figures w; gcf := gcf w;
                   completed := completed w |}))%comp.

(** [run.complete()]: the run is marked complete once the call has
    returned. *)
Definition complete : comp world unit :=
  (emit EvComplete;;
   lift run_complete;;
   modify (λ w, {| trace := trace w; global_rng := global_rng w; dirs := dirs w;
                   files := files w; scalars := scalars w; images := images w;
                   figures := figures w; gcf := gcf w; completed := true |}))%comp.

(** *** The scripts *)

Definition feature_columns : list string :=
  ["Pregnancies"; "PlasmaGlucose"; "DiastolicBloodPressure"; "TricepsThickness";
   "SerumInsulin"; "BMI"; "DiabetesPedigree"; "Age"].

Definition model_file : string := "outputs/diabetes_model.pkl".

(** The generator handed to [pd.concat]: every entry of the folder is
    joined to the folder name and read, in listing order. *)
Definition read_all (folder : option string) (all_files : list string)
  : comp world (list frame) :=
  for_each all_files
    (λ acc csv_file,
       let! path := lift (path_join folder csv_file) in
       let! df := read_csv path in
       ret (acc ++ [df]))%comp
    [].

(** diabetes_training_from_datastore/diabetes_training.py *)
Definition datastore_script (argv : cli) : comp world unit :=
  (let! args := parse_args argv in
   let reg := reg_rate args in
   get_context;;
   let data_folder := data_folder args in
   print [PStr "Loading data from"; pyobj_of_folder data_folder];;
   let! all_files := listdir data_folder in
   let! frames := read_all data_folder all_files in
   let! diabetes := concat frames in
   let! X := lift (values_of_columns diabetes feature_columns) in
   let! y := lift (values_of_column diabetes "Diabetic") in
   let! (X_train, X_test, y_train, y_test) :=
     train_test_split X y (3 # 10)%Q (Some 0) in
   print [PStr "Training a logistic regression model with regularization rate of";
          PNum reg];;
   log "Regularization Rate" (np_float reg);;
   let! C := lift (truediv 1 reg) in
   let! model := fit (LogisticRegression C "liblinear") X_train y_train in
   let! y_hat := predict model X_test in
   let! hits := lift (np_equal y_hat y_test) in
   let! acc := average hits in
   print [PStr "Accuracy:"; PNum acc];;
   log "Accuracy" (np_float acc);;
   let! y_scores := predict_proba model X_test in
   let! positive := lift (column1 y_scores) in
   let! auc := roc_auc_score y_test positive in
   print [PStr ("AUC: " +:+ str_float auc)];;
   log "AUC" (np_float auc);;
   makedirs "outputs";;
   dump model model_file;;
   complete)%comp.

(** diabetes_training_tree/diabetes_training.py *)
Definition tree_script : comp world unit :=
  (get_context;;
   print [PStr "Loading Data..."];;
   let! diabetes := input_dataframe "diabetes" in
   let! X := lift (values_of_columns diabetes feature_columns) in
   let! y := lift (values_of_column diabetes "Diabetic") in
   let! (X_train, X_test, y_train, y_test) :=
     train_test_split X y (3 # 10)%Q (Some 0) in
   print [PStr "Training a decision tree model"];;
   let! model := fit DecisionTreeClassifier X_train y_train in
   let! y_hat := predict model X_test in
   let! hits := lift (np_equal y_hat y_test) in
   let! acc := average hits in
   print [PStr "Accuracy:"; PNum acc];;
   log "Accuracy" (np_float acc);;
   let! y_scores := predict_proba model X_test in
   let! positive := lift (column1 y_scores) in
   let! auc := roc_auc_score y_test positive in
   print [PStr ("AUC: " +:+ str_float auc)];;
   log "AUC" (np_float auc);;
   let! positive' := lift (column1 y_scores) in
   let! (fpr, tpr, thresholds) := roc_curve y_test positive' in
   let! fig := plt_figure (6, 4)%Q in
   plt_plot [0; 1]%Q [0; 1]%Q (Some "k--");;
   plt_plot fpr tpr None;;
   plt_xlabel "False Positive Rate";;
   plt_ylabel "True Positive Rate";;
   plt_title "ROC Curve";;
   log_image "ROC" fig;;
   plt_show;;
   makedirs "outputs";;
   dump model model_file;;
   complete)%comp.

(** *** Steps of a run, and the order the specification gives them *)

Inductive step : Type :=
| ParseArgs | GetContext | PrintLine | LoadData | Split | Fit | Predict
| Accuracy | PredictProba | Auc | Plot | LogImage | LogScalar
| Serialize | Complete.

Definition step_of (e : event) : step :=
  match e with
  | EvParseArgs _ => ParseArgs
  | EvGetContext => GetContext
  | EvPrint _ => PrintLine
  | EvListdir _ | EvReadCsv _ | EvConcat _ | EvToPandas _ => LoadData
  | EvSplit _ _ _ _ => Split
  | EvFit _ _ _ => Fit
  | EvPredict _ _ => Predict
  | EvAverage _ => Accuracy
  | EvPredictProba _ _ => PredictProba
  | EvRocAucScore _ _ => Auc
  | EvRocCurve _ _ | EvFigure _ | EvPlot _ _ _ | EvXlabel _ | EvYlabel _
  | EvTitle _ | EvShow => Plot
  | EvLogImage _ _ => LogImage
  | EvLog _ _ => LogScalar
  | EvMakedirs _ | EvDump _ _ => Serialize
  | EvComplete => Complete
  end.

(** The position of a step in the order the specification states:
    arguments or dataset, split, fit, predict/predict_proba, accuracy and
    AUC, plot, serialize, log the scalar metrics.  Steps the sentence
    does not mention have no position. *)
Definition spec_stage (s : step) : option nat :=
  match s with
  | ParseArgs | LoadData => Some 0
  | Split => Some 1
  | Fit => Some 2
  | Predict | PredictProba => Some 3
  | Accuracy | Auc => Some 4
  | Plot | LogImage => Some 5
  | Serialize => Some 6
  | LogScalar => Some 7
  | GetContext | PrintLine | Complete => None
  end%nat.

Fixpoint nondecreasing (l : list nat) : bool :=
  match l with
  | a :: (b :: _) as l' => (a <=? b)%nat && nondecreasing l'
  | _ => true
  end.

Definition follows_spec_order (tr : list event) : bool :=
  nondecreasing (omap (λ e, spec_stage (step_of e)) tr).

(** The events a computation adds to the trace. *)
Definition new_events {A} (m : comp world A) (w : world) : list event :=
  drop (length (trace w)) (trace (m w).2).

(** *** The partition a run exhibits *)




(** *** A run on which every library call answers *)

(** The values the libraries hand back in the part common to both scripts. *)
Record answers : Type := Answers {
  a_frame : frame;
  a_X : matrix;
  a_y : vector;
  a_X_train : matrix;
  a_X_test : matrix;
  a_y_train : vector;
  a_y_test : vector;
  a_model : clf;
  a_y_hat : vector;
  a_scores : matrix;
  a_positive : vector;
  a_auc : Q;
}.

Record trained (est : estimator) (g : rng) (a : answers) : Prop := {
  got_X : values_of_columns (a_frame a) feature_columns = Ok (a_X a);
  got_y : values_of_column (a_frame a) "Diabetic" = Ok (a_y a);
  got_split :
    sk_split (RandomState 0) (3 # 10)%Q (a_X a) (a_y a)
    = Ok (a_X_train a, a_X_test a, a_y_train a, a_y_test a);
  got_model : sk_fit est g (a_X_train a) (a_y_train a) = Ok (a_model a);
  got_y_hat : sk_predict (a_model a) (a_X_test a) = Ok (a_y_hat a);
  same_length : length (a_y_hat a) = length (a_y_test a);
  got_scores : sk_predict_proba (a_model a) (a_X_test a) = Ok (a_scores a);
  got_positive : column1 (a_scores a) = Ok (a_positive a);
  got_auc : sk_roc_auc_score (a_y_test a) (a_positive a) = Ok (a_auc a);
}.

Definition hits (a : answers) : list bool :=
  zip_with Qeq_bool (a_y_hat a) (a_y_test a).

Definition reg_of (argv : cli) : Q := default (1 # 100)%Q (cli_regularization argv).

(** The three saving calls answered. *)
Record saved (m : clf) : Prop := {
  made_folder : os_makedirs "outputs" = Ok tt;
  dumped : joblib_dump m model_file = Ok tt;
  run_completed : run_complete = Ok tt;
}.

Record datastore_ok (argv : cli) (w : world)
    (all_files paths : list string) (frames : list frame) (a : answers) : Prop := {
  got_files : os_listdir (cli_data_folder argv) = Ok all_files;
  got_paths :
    Forall2 (λ f p, path_join (cli_data_folder argv) f = Ok p) all_files paths;
  got_frames : Forall2 (λ p df, pd_read_csv p = Ok df) paths frames;
  got_frame : pd_concat frames = Ok (a_frame a);
  reg_nonzero : ¬ (reg_of argv == 0)%Q;
  got_trained :
    trained (LogisticRegression (1 / reg_of argv) "liblinear") (global_rng w) a;
  got_saved_lr : saved (a_model a);
}.

Record tree_ok (w : world) (ds : dataset) (a : answers)
    (fpr tpr thresholds : vector) : Prop := {
  got_dataset : run_input_datasets !! "diabetes" = Some ds;
  got_dataframe : to_pandas_dataframe ds = Ok (a_frame a);
  got_tree : trained DecisionTreeClassifier (global_rng w) a;
  got_curve :
    sk_roc_curve (a_y_test a) (a_positive a) = Ok (fpr, tpr, thresholds);
  got_saved_tree : saved (a_model a);
}.

(** The events from the split to the logging of the AUC. *)
Definition evaluation_events (est : estimator) (a : answers) (before_fit : list event)
  : list event :=
  [EvSplit (a_X a) (a_y a) (3 # 10)%Q (Some 0)] ++ before_fit ++
  [EvFit est (a_X_train a) (a_y_train a);
   EvPredict (a_model a) (a_X_test a);
   EvAverage (hits a);
   EvPrint [PStr "Accuracy:"; PNum (np_average (hits a))];
   EvLog "Accuracy" (np_average (hits a));
   EvPredictProba (a_model a) (a_X_test a);
   EvRocAucScore (a_y_test a) (a_positive a);
   EvPrint [PStr ("AUC: " +:+ str_float (a_auc a))];
   EvLog "AUC" (a_auc a)].

Definition saving_events (a : answers) : list event :=
  [EvMakedirs "outputs"; EvDump (a_model a) model_file; EvComplete].

Definition datastore_events (argv : cli) (paths : list string)
    (frames : list frame) (a : answers) : list event :=
  [EvParseArgs argv; EvGetContext;
   EvPrint [PStr "Loading data from"; pyobj_of_folder (cli_data_folder argv)];
   EvListdir (cli_data_folder argv)] ++
  (EvReadCsv <$> paths) ++
  [EvConcat frames] ++
  evaluation_events (LogisticRegression (1 / reg_of argv) "liblinear") a
    [EvPrint [PStr "Training a logistic regression model with regularization rate of";
              PNum (reg_of argv)];
     EvLog "Regularization Rate" (reg_of argv)] ++
  saving_events a.

Definition datastore_final (argv : cli) (paths : list string)
    (frames : list frame) (a : answers) (w : world) : world :=
  {| trace := trace w ++ datastore_events argv paths frames a;
     global_rng := global_rng w;
     dirs := {[ "outputs" ]} ∪ dirs w;
     files := <[ model_file := a_model a ]> (files w);
     scalars := scalars w ++ [("Regularization Rate", reg_of argv);
                              ("Accuracy", np_average (hits a));
                              ("AUC", a_auc a)];
     images := images w; figures := figures w; gcf := gcf w;
     completed := true |}.

Definition roc_figure (fpr tpr : vector) : figure :=
  {| figsize := (6, 4)%Q;
     lines := [([0; 1]%Q, [0; 1]%Q, Some "k--"); (fpr, tpr, None)];
     xlabel := "False Positive Rate";
     ylabel := "True Positive Rate";
     title := "ROC Curve" |}.

Definition plotting_events (a : answers) (fpr tpr : vector) : list event :=
  [EvRocCurve (a_y_test a) (a_positive a);
   EvFigure (6, 4)%Q;
   EvPlot [0; 1]%Q [0; 1]%Q (Some "k--");
   EvPlot fpr tpr None;
   EvXlabel "False Positive Rate";
   EvYlabel "True Positive Rate";
   EvTitle "ROC Curve";
   EvLogImage "ROC" (roc_figure fpr tpr);
   EvShow].

Definition tree_events (a : answers) (fpr tpr : vector) : list event :=
  [EvGetContext; EvPrint [PStr "Loading Data..."]; EvToPandas "diabetes"] ++
  evaluation_events DecisionTreeClassifier a
    [EvPrint [PStr "Training a decision tree model"]] ++
  plotting_events a fpr tpr ++
  saving_events a.

Definition tree_final (a : answers) (fpr tpr : vector) (w : world) : world :=
  {| trace := trace w ++ tree_events a fpr tpr;
     global_rng := global_rng w;
     dirs := {[ "outputs" ]} ∪ dirs w;
     files := <[ model_file := a_model a ]> (files w);
     scalars := scalars w ++ [("Accuracy", np_average (hits a));
                              ("AUC", a_auc a)];
     images := images w ++ [("ROC", roc_figure fpr tpr)];
     figures := figures w ++ [roc_figure fpr tpr];
     gcf := Some (length (figures w));
     completed := true |}.

(** The answers of the common part, computed by asking the libraries;
    a call that raises leaves the given default. *)
Definition answer {A} (d : A) (r : outcome A) : A :=
  match r with Ok a => a | Raise _ => d end.

Definition computed_answers (df : frame) (est : estimator) (g : rng) (m0 : clf)
  : answers :=
  let X := answer [] (values_of_columns df feature_columns) in
  let y := answer [] (values_of_column df "Diabetic") in
  let '(X_train, X_test, y_train, y_test) :=
    answer ([], [], [], []) (sk_split (RandomState 0) (3 # 10)%Q X y) in
  let m := answer m0 (sk_fit est g X_train y_train) in
  let scores := answer [] (sk_predict_proba m X_test) in
  let positive := answer [] (column1 scores) in
  {| a_frame := df; a_X := X; a_y := y;
     a_X_train := X_train; a_X_test := X_test;
     a_y_train := y_train; a_y_test := y_test;
     a_model := m;
     a_y_hat := answer [] (sk_predict m X_test);
     a_scores := scores;
     a_positive := positive;
     a_auc := answer 0%Q (sk_roc_auc_score y_test positive) |}.



(** Every listed entry joins to a path that [read_csv] reads. *)
Definition reads_ok (folder : option string) (entries paths : list string)
    (frames : list frame) : Prop :=
  Forall2 (λ f p, path_join folder f = Ok p) entries paths ∧
  Forall2 (λ p df, pd_read_csv p = Ok df) paths frames.

Definition needed_columns : list string := feature_columns ++ ["Diabetic"].

(** Library contracts some statements rely on. *)


(** The test part has [ceil(test_size * n)] of the [n] rows. *)
Definition split_sizes : Prop :=
  ∀ r test_size X y X_train X_test y_train y_test,
    sk_split r test_size X y = Ok (X_train, X_test, y_train, y_test) →
    Z.of_nat (length X_test)
    = Qceiling (test_size * inject_Z (Z.of_nat (length X))).

(** *** Runs that stop early *)

(** The datastore script has listed, read and concatenated its folder. *)
Record datastore_loaded (argv : cli) (all_files paths : list string)
    (frames : list frame) (df : frame) : Prop := {
  loaded_files : os_listdir (cli_data_folder argv) = Ok all_files;
  loaded_reads : reads_ok (cli_data_folder argv) all_files paths frames;
  loaded_frame : pd_concat frames = Ok df;
}.

(** The tree script has fetched its input dataset. *)
Record tree_loaded (ds : dataset) (df : frame) : Prop := {
  loaded_dataset : run_input_datasets !! "diabetes" = Some ds;
  loaded_dataframe : to_pandas_dataframe ds = Ok df;
}.

(** Features and labels were selected and split. *)
Record split_ok (df : frame) (X : matrix) (y : vector)
    (X_train X_test : matrix) (y_train y_test : vector) : Prop := {
  split_X : values_of_columns df feature_columns = Ok X;
  split_y : values_of_column df "Diabetic" = Ok y;
  split_parts :
    sk_split (RandomState 0) (3 # 10)%Q X y = Ok (X_train, X_test, y_train, y_test);
}.



End Scripts.

(** *** A small concrete platform, to run the scripts on *)

Definition toy_columns : list string := feature_columns ++ ["Diabetic"].

Definition toy_frame_a : frame :=
  {| columns := toy_columns;
     records := [[1; 85; 66; 29; 0; 133 # 5; 7 # 20; 31; 0];
                 [6; 148; 72; 35; 0; 168 # 5; 5 # 8; 50; 1];
                 [8; 183; 64; 0; 0; 233 # 10; 2 # 3; 32; 1]]%Q |}.

Definition toy_frame_b : frame :=
  {| columns := toy_columns;
     records := [[1; 89; 66; 23; 94; 281 # 10; 1 # 6; 21; 0];
                 [0; 137; 40; 35; 168; 431 # 10; 9 # 4; 33; 1]]%Q |}.

(** A file without the label column. *)
Definition toy_frame_c : frame :=
  {| columns := feature_columns;
     records := [[3; 78; 50; 32; 88; 31; 1 # 4; 26]]%Q |}.

Definition toy_listdir (folder : option string) : outcome (list string) :=
  match folder with
  | Some "data" => Ok ["a.csv"; "b.csv"]
  | Some "mixed" => Ok ["a.csv"; "notes.bin"; "b.csv"]
  | Some "unlabelled" => Ok ["c.csv"]
  | _ => Raise (LibraryError "os.listdir")
  end.

Definition toy_read_csv (path : string) : outcome frame :=
  if String.eqb path "data/a.csv" || String.eqb path "mixed/a.csv" then Ok toy_frame_a
  else if String.eqb path "data/b.csv" || String.eqb path "mixed/b.csv" then Ok toy_frame_b
  else if String.eqb path "unlabelled/c.csv" then Ok toy_frame_c
  else Raise (LibraryError "pandas.read_csv").

Definition toy_concat (frames : list frame) : outcome frame :=
  match frames with
  | [] => Raise ValueError
  | df :: _ => Ok {| columns := columns df; records := frames ≫= records |}
  end.

(** Rotate by the seed, then cut off the first [ceil(test_size * n)] rows
    as the test part. *)
Definition toy_split (r : Z) (test_size : Q) (X : matrix) (y : vector)
  : outcome (matrix * matrix * vector * vector) :=
  let n_test := Z.to_nat (Qceiling (test_size * inject_Z (Z.of_nat (length X)))) in
  if (0 <=? Qceiling (test_size * inject_Z (Z.of_nat (length X))))
     && (n_test <=? length X)%nat && (0 <? length X)%nat
  then Ok (drop n_test (rotate (Z.to_nat r) X), take n_test (rotate (Z.to_nat r) X),
           drop n_test (rotate (Z.to_nat r) y), take n_test (rotate (Z.to_nat r) y))
  else Raise ValueError.

(** A toy classifier is a glucose threshold: the mean glucose of the
    training rows. *)
Definition glucose (row : list Q) : Q := nth 1 row 0%Q.

Definition toy_fit (est : estimator) (g : Z) (X : matrix) (y : vector) : outcome Q :=
  match X with
  | [] => Raise ValueError
  | _ => Ok (foldr Qplus 0 (glucose <$> X) / inject_Z (Z.of_nat (length X)))%Q
  end.

Definition toy_label (threshold : Q) (row : list Q) : Q :=
  if Qle_bool threshold (glucose row) then 1%Q else 0%Q.

Definition toy_platform : Platform := {|
  clf := Q;
  rng := Z;
  dataset := frame;
  os_listdir := toy_listdir;
  os_path_join := λ d f, d +:+ "/" +:+ f;
  pd_read_csv := toy_read_csv;
  pd_concat := toy_concat;
  run_input_datasets := {[ "diabetes" := toy_frame_a ]};
  to_pandas_dataframe := Ok;
  RandomState := λ seed, seed;
  sk_split := toy_split;
  sk_fit := toy_fit;
  sk_predict := λ m X, Ok (toy_label m <$> X);
  sk_predict_proba := λ m X, Ok ((λ row, [1 - toy_label m row; toy_label m row]%Q) <$> X);
  sk_roc_auc_score := λ y_true y_score, Ok (np_average (zip_with Qeq_bool y_true y_score));
  sk_roc_curve := λ y_true y_score, Ok ([0; 0; 1], [0; 1; 1], [2; 1; 0])%Q;
  str_float := λ _, "<float>";
  os_makedirs := λ _, Ok tt;
  joblib_dump := λ _ _, Ok tt;
  run_complete := Ok tt;
|}.

Definition toy_world (g : Z) : @world toy_platform :=
  @World toy_platform [] g ∅ ∅ [] [] [] None false.

Definition toy_argv : cli :=
  {| cli_regularization := None; cli_data_folder := Some "data" |}.

Definition toy_mixed_argv : cli :=
  {| cli_regularization := Some (1 # 10)%Q; cli_data_folder := Some "mixed" |}.

Definition toy_unlabelled_argv : cli :=
  {| cli_regularization := None; cli_data_folder := Some "unlabelled" |}.

Definition toy_frames : list frame := [toy_frame_a; toy_frame_b].

Definition toy_frame : frame :=
  {| columns := toy_columns; records := toy_frames ≫= records |}.

Definition toy_datastore_answers : @answers toy_platform :=
  computed_answers (P := toy_platform) toy_frame
    (LogisticRegression (1 / (1 # 100)) "liblinear") 7 0%Q.

Definition toy_tree_answers : @answers toy_platform :=
  computed_answers (P := toy_platform) toy_frame_a DecisionTreeClassifier 7 0%Q.

(** Variants of the toy platform: another folder listing, other input
    datasets, and a [predict_proba] with fewer columns (a classifier
    that saw one class only). *)
Definition toy_cwd_listdir (folder : option string) : outcome (list string) :=
  match folder with
  | None => Ok ["README.md"]
  | _ => toy_listdir folder
  end.

Definition toy_variant (listing : option string → outcome (list string))
    (datasets : gmap string frame) (proba_columns : nat) : Platform := {|
  clf := Q;
  rng := Z;
  dataset := frame;
  os_listdir := listing;
  os_path_join := λ d f, d +:+ "/" +:+ f;
  pd_read_csv := toy_read_csv;
  pd_concat := toy_concat;
  run_input_datasets := datasets;
  to_pandas_dataframe := Ok;
  RandomState := λ seed, seed;
  sk_split := toy_split;
  sk_fit := toy_fit;
  sk_predict := λ m X, Ok (toy_label m <$> X);
  sk_predict_proba := λ m X,
    Ok ((λ row, take proba_columns [1 - toy_label m row; toy_label m row]%Q) <$> X);
  sk_roc_auc_score := λ y_true y_score, Ok (np_average (zip_with Qeq_bool y_true y_score));
  sk_roc_curve := λ y_true y_score, Ok ([0; 0; 1], [0; 1; 1], [2; 1; 0])%Q;
  str_float := λ _, "<float>";
  os_makedirs := λ _, Ok tt;
  joblib_dump := λ _ _, Ok tt;
  run_complete := Ok tt;
|}.

Definition toy_one_class : Platform :=
  toy_variant toy_listdir {[ "diabetes" := toy_frame_a ]} 1.

Definition toy_no_dataset : Platform := toy_variant toy_listdir ∅ 2.

Definition toy_unlabelled_dataset : Platform :=
  toy_variant toy_listdir {[ "diabetes" := toy_frame_c ]} 2.

Definition toy_cwd : Platform :=
  toy_variant toy_cwd_listdir {[ "diabetes" := toy_frame_a ]} 2.

Definition toy_start (P : Platform) (g : @rng P) : @world P :=
  @World P [] g ∅ ∅ [] [] [] None false.

(** A world in which another figure is open and current. *)
Definition toy_world_with_figure : @world toy_platform :=
  @World toy_platform [] 7 ∅ ∅ [] [] [new_figure (1, 1)%Q] (Some 0%nat) false.

Definition toy_zero_argv : cli :=
  {| cli_regularization := Some 0%Q; cli_data_folder := Some "data" |}.

Definition toy_no_folder_argv : cli :=
  {| cli_regularization := None; cli_data_folder := None |}.

(** A dataset of ten records with both classes in every part of the
    split, a folder that also holds a text file, and a disk on which the
    model cannot be written. *)
Definition toy_frame_ten : frame :=
  {| columns := toy_columns;
     records := (toy_frames ≫= records) ++
                [[5; 116; 74; 0; 0; 128 # 5; 1 # 5; 30; 0];
                 [3; 178; 50; 32; 88; 31; 1 # 4; 26; 1];
                 [10; 115; 0; 0; 0; 353 # 10; 2 # 15; 29; 0];
                 [2; 97; 70; 45; 543; 61 # 2; 3 # 19; 53; 0];
                 [8; 125; 96; 0; 0; 43 # 2; 9 # 40; 54; 1]]%Q |}.

Definition toy_notes_listdir (folder : option string) : outcome (list string) :=
  match folder with
  | Some "notes" => Ok ["a.csv"; "b.csv"; "notes.txt"]
  | _ => toy_listdir folder
  end.

(** [notes.txt] holds one line of text: [read_csv] takes the line for a
    header and returns a frame of that one column and no record. *)
Definition toy_notes_read_csv (path : string) : outcome frame :=
  if String.eqb path "notes/a.csv" then Ok toy_frame_a
  else if String.eqb path "notes/b.csv" then Ok toy_frame_b
  else if String.eqb path "notes/notes.txt"
  then Ok {| columns := ["retrain the model on Monday"]; records := [] |}
  else toy_read_csv path.

(** [pd.concat] keeps every column of every frame.  A cell that a frame
    does not have is NaN in pandas; the model has no NaN and pads it. *)
Definition toy_outer_concat (frames : list frame) : outcome frame :=
  let cols := remove_dups (frames ≫= columns) in
  match frames with
  | [] => Raise ValueError
  | _ => Ok {| columns := cols;
               records := frames ≫=
                 (λ df, (λ r, (λ c, at_column df c r) <$> cols) <$> records df) |}
  end.

Definition toy_general (listing : option string → outcome (list string))
    (reading : string → outcome frame)
    (concatenating : list frame → outcome frame)
    (datasets : gmap string frame)
    (dumping : outcome unit) : Platform := {|
  clf := Q;
  rng := Z;
  dataset := frame;
  os_listdir := listing;
  os_path_join := λ d f, d +:+ "/" +:+ f;
  pd_read_csv := reading;
  pd_concat := concatenating;
  run_input_datasets := datasets;
  to_pandas_dataframe := Ok;
  RandomState := λ seed, seed;
  sk_split := toy_split;
  sk_fit := toy_fit;
  sk_predict := λ m X, Ok (toy_label m <$> X);
  sk_predict_proba := λ m X, Ok ((λ row, [1 - toy_label m row; toy_label m row]%Q) <$> X);
  sk_roc_auc_score := λ y_true y_score, Ok (np_average (zip_with Qeq_bool y_true y_score));
  sk_roc_curve := λ y_true y_score, Ok ([0; 0; 1], [0; 1; 1], [2; 1; 0])%Q;
  str_float := λ _, "<float>";
  os_makedirs := λ _, Ok tt;
  joblib_dump := λ _ _, dumping;
  run_complete := Ok tt;
|}.

Definition toy_ten : Platform :=
  toy_general toy_listdir toy_read_csv toy_concat
    {[ "diabetes" := toy_frame_ten ]} (Ok tt).

Definition toy_notes : Platform :=
  toy_general toy_notes_listdir toy_notes_read_csv toy_outer_concat
    {[ "diabetes" := toy_frame_ten ]} (Ok tt).

Definition toy_disk_full : Platform :=
  toy_general toy_listdir toy_read_csv toy_concat
    {[ "diabetes" := toy_frame_ten ]} (Raise (LibraryError "joblib.dump")).

Definition toy_notes_argv : cli :=
  {| cli_regularization := None; cli_data_folder := Some "notes" |}.

Definition toy_ten_answers : @answers toy_ten :=
  computed_answers (P := toy_ten) toy_frame_ten DecisionTreeClassifier 7 0%Q.

End Training.


(** * Facts about the scripts *)

Lemma bind_ok {W A B} (m : comp W A) (k : A → comp W B) w a w' :
  m w = (Ok a, w') → bind m k w = k a w'.
Proof. intros H. unfold bind. by rewrite H. Qed.

Lemma bind_raise {W A B} (m : comp W A) (k : A → comp W B) w e w' :
  m w = (Raise e, w') → bind m k w = (Raise e, w').
Proof. intros H. unfold bind. by rewrite H. Qed.

(** ** The scoring service *)

Module ServiceFacts.
Import Service.

Lemma classnames_getitem (p : Z) :
  list_getitem classnames p =
    if (p =? 0) || (p =? -2) then Ok "not-diabetic"
    else if (p =? 1) || (p =? -1) then Ok "diabetic"
    else Raise IndexError.
Proof.
  assert (p ≤ -3 ∨ p = -2 ∨ p = -1 ∨ p = 0 ∨ p = 1 ∨ 2 ≤ p)
    as [Hlo|[->|[->|[->|[->|Hhi]]]]] by lia; try reflexivity.
  - unfold list_getitem. change (Z.of_nat (length classnames)) with 2. cbv zeta.
    rewrite (proj2 (Z.ltb_lt p 0)) by lia.
    rewrite (proj2 (Z.ltb_lt (p + 2) 0)) by lia.
    rewrite !(proj2 (Z.eqb_neq p _)) by lia. done.
  - unfold list_getitem. change (Z.of_nat (length classnames)) with 2. cbv zeta.
    rewrite (proj2 (Z.ltb_ge p 0)) by lia. cbn iota. rewrite (proj2 (Z.ltb_ge p 0)) by lia.
    rewrite (proj2 (Z.leb_le 2 p)) by lia.
    rewrite !(proj2 (Z.eqb_neq p _)) by lia. done.
Qed.

Section Facts.
Context `{L : Libs}.

Lemma loop_ok (preds : list Z) acc (w : world) :
  Forall (λ p, -2 ≤ p ≤ 1) preds →
  for_each preds labelled acc w = (Ok (acc ++ (wrapped <$> preds)), w).
Proof.
  intros H. revert acc. induction H as [|p preds Hp _ IH]; intros acc; cbn.
  - by rewrite app_nil_r.
  - unfold bind at 1, labelled at 1, bind, lift, wrapped at 1.
    rewrite classnames_getitem.
    assert (p = -2 ∨ p = -1 ∨ p = 0 ∨ p = 1) as [-> | [-> | [-> | ->]]] by lia;
      cbn; rewrite IH, <- app_assoc; done.
Qed.

Lemma loop_raise (preds : list Z) acc (w : world) :
  Exists (λ p, p < -2 ∨ 1 < p) preds →
  for_each preds labelled acc w = (Raise IndexError, w).
Proof.
  intros H. revert acc. induction preds as [|p preds IH]; intros acc.
  - by apply Exists_nil in H.
  - cbn. unfold bind at 1, labelled at 1, bind, lift.
    rewrite classnames_getitem.
    destruct (decide (p < -2 ∨ 1 < p)) as [Hp|Hp].
    + rewrite !(proj2 (Z.eqb_neq p _)) by lia. done.
    + apply Exists_cons in H as [?|H]; [done|].
      assert (p = -2 ∨ p = -1 ∨ p = 0 ∨ p = 1) as [-> | [-> | [-> | ->]]] by lia;
        cbn; by rewrite IH.
Qed.

(** [run] up to the loop, once the libraries have answered. *)
Lemma run_scored (w : world) m raw request data arr preds :
  model w = Some m →
  json_loads raw = Ok request →
  getitem request "data" = Ok data →
  np_array data = Ok arr →
  predict m arr = Ok preds →
  run raw w =
    let w' := {| model := model w;
                 stdout := stdout w ++
                   ["Data:" +:+ str_data data +:+ " - Predictions:"
                      +:+ str_predictions preds] |} in
    match for_each preds labelled [] w' with
    | (Ok cs, w'') => (Ok (json_dumps (JList (JStr <$> cs))), w'')
    | (Raise e, w'') => (Raise e, w'')
    end.
Proof.
  intros Hm Hj Hd Ha Hp. unfold run.
  erewrite bind_ok by (unfold lift; rewrite Hj; reflexivity).
  erewrite bind_ok by (unfold lift; rewrite Hd; reflexivity).
  erewrite bind_ok by (unfold lift; rewrite Ha; reflexivity).
  erewrite bind_ok by (unfold global_model; rewrite Hm; reflexivity).
  erewrite bind_ok by (unfold lift; rewrite Hp; reflexivity).
  erewrite bind_ok by reflexivity.
  reflexivity.
Qed.

(** C1.  For a request whose [raw_data] decodes to a JSON object with a
    ['data'] field of [n] feature rows, and a loaded model that answers
    with one label per row, each 0 or 1, [run] returns the JSON encoding
    of a list of exactly [n] class names; entry [i] is ["not-diabetic"]
    when prediction [i] is 0 and ["diabetic"] when it is 1. *)
Theorem run_returns_class_labels (w : world) m raw d rows arr preds :
  model w = Some m →
  json_loads raw = Ok (JDict d) →
  d !! "data" = Some (JList rows) →
  np_array (JList rows) = Ok arr →
  predict m arr = Ok preds →
  length preds = length rows →
  Forall (λ p, p = 0 ∨ p = 1) preds →
  ∃ labels : list string,
    (run raw w).1 = Ok (json_dumps (JList (JStr <$> labels))) ∧
    length labels = length rows ∧
    ∀ i p, preds !! i = Some p →
      (p = 0 → labels !! i = Some "not-diabetic") ∧
      (p = 1 → labels !! i = Some "diabetic").
Proof.
  intros Hm Hj Hd Ha Hp Hlen Hbin.
  exists (wrapped <$> preds).
  erewrite run_scored; eauto; [|by cbn; rewrite Hd]. cbv zeta.
  rewrite loop_ok by (eapply Forall_impl; [exact Hbin|cbn; lia]).
  split; [done|]. split; [by rewrite length_fmap|].
  intros i p Hi. rewrite list_lookup_fmap, Hi. by split; intros ->.
Qed.

Lemma loop_world (preds : list Z) acc (w : world) :
  (for_each preds labelled acc w).2 = w.
Proof.
  revert acc. induction preds as [|p preds IH]; intros acc; [done|].
  cbn. unfold bind at 1, labelled at 1, bind, lift, ret.
  destruct (list_getitem classnames p); [apply IH|done].
Qed.

(** [run] never rebinds the global [model], whatever the request. *)
Lemma run_keeps_model (w : world) raw : model (run raw w).2 = model w.
Proof.
  unfold run, bind at 1, lift at 1.
  destruct (json_loads raw) as [request|]; [|done].
  unfold bind at 1, lift at 1.
  destruct (getitem request "data") as [data|]; [|done].
  unfold bind at 1, lift at 1.
  destruct (np_array data) as [arr|]; [|done].
  unfold bind at 1, global_model.
  destruct (model w) as [m|] eqn:Hm; [|done].
  unfold bind at 1, lift at 1.
  destruct (predict m arr) as [preds|]; [|done].
  unfold bind at 1, print, modify. unfold bind at 1.
  match goal with |- context [for_each ?ps ?b ?a ?w0] =>
    pose proof (loop_world ps a w0) as Hw;
    change b with labelled; destruct (for_each ps labelled a w0) as [[cs|e] w'']
  end; cbn in *; by subst.
Qed.

(** C5.  [run] has no error recovery of its own.  When [raw_data] is not
    valid JSON, or is JSON without a ['data'] key, or holds rows that
    cannot be made an array or scored by the model, [run] raises the
    exception of the library (or of the lookup) instead of returning, and
    the global [model] -- in fact the whole module state -- is unchanged. *)
Theorem run_raises_library_errors (w : world) raw e :
  bad_request w raw e →
  (run raw w).1 = Raise e ∧ model (run raw w).2 = model w ∧ (run raw w).2 = w.
Proof.
  intros Hbad. rewrite run_keeps_model.
  enough (run raw w = (Raise e, w)) as -> by done.
  unfold run. destruct Hbad as [e Hj|d Hj Hd|request Hj Hd
                                |request data e Hj Hd Ha
                                |request data arr m e Hj Hd Ha Hm Hp].
  - erewrite bind_raise; [done|]. unfold lift. by rewrite Hj.
  - erewrite bind_ok by (unfold lift; rewrite Hj; reflexivity).
    erewrite bind_raise; [done|]. unfold lift. cbn. by rewrite Hd.
  - erewrite bind_ok by (unfold lift; rewrite Hj; reflexivity).
    erewrite bind_raise; [done|]. unfold lift.
    destruct request as [| | | | |d]; try done. by destruct (Hd d).
  - erewrite bind_ok by (unfold lift; rewrite Hj; reflexivity).
    erewrite bind_ok by (unfold lift; rewrite Hd; reflexivity).
    erewrite bind_raise; [done|]. unfold lift. by rewrite Ha.
  - erewrite bind_ok by (unfold lift; rewrite Hj; reflexivity).
    erewrite bind_ok by (unfold lift; rewrite Hd; reflexivity).
    erewrite bind_ok by (unfold lift; rewrite Ha; reflexivity).
    erewrite bind_ok by (unfold global_model; rewrite Hm; reflexivity).
    erewrite bind_raise; [done|]. unfold lift. by rewrite Hp.
Qed.

(** C8.  The lookup [classnames[prediction]] is within the bounds
    [0 .. len-1] exactly for the labels 0 and 1.  When the model returns a
    label outside {0, 1} for some row, [run] either fails with IndexError
    (some label is above 1 or below -2) or, the offending labels being
    negative (-1 or -2), the lookup silently wraps: label [p < 0] yields
    [classnames[p + 2]]. *)
Theorem label_outside_0_1 (w : world) m raw request data arr preds :
  model w = Some m →
  json_loads raw = Ok request →
  getitem request "data" = Ok data →
  np_array data = Ok arr →
  predict m arr = Ok preds →
  Exists (λ p, p ≠ 0 ∧ p ≠ 1) preds →
  (∀ p, 0 ≤ p < Z.of_nat (length classnames) ↔ p = 0 ∨ p = 1) ∧
  ((Exists (λ p, p < -2 ∨ 1 < p) preds ∧ (run raw w).1 = Raise IndexError)
   ∨ (Exists (λ p, p = -1 ∨ p = -2) preds ∧
      ∃ labels : list string,
        (run raw w).1 = Ok (json_dumps (JList (JStr <$> labels))) ∧
        ∀ i p, preds !! i = Some p → p < 0 →
               labels !! i = classnames !! Z.to_nat (p + 2))).
Proof.
  intros Hm Hj Hd Ha Hp Hout. split.
  { intros p. change (Z.of_nat (length classnames)) with 2. lia. }
  erewrite run_scored by eauto. cbv zeta.
  destruct (decide (Exists (λ p, p < -2 ∨ 1 < p) preds)) as [Hbad|Hfine].
  - left. split; [done|]. by rewrite loop_raise.
  - right. apply not_Exists_Forall in Hfine; [|intros p; cbn; apply _].
    assert (Forall (λ p, -2 ≤ p ≤ 1) preds) as Hrange.
    { eapply Forall_impl; [exact Hfine|]. cbn. lia. }
    split.
    + rewrite Forall_forall in Hrange. rewrite Exists_exists in Hout |- *.
      destruct Hout as (p & Hin & Hp0 & Hp1). exists p. split; [done|].
      specialize (Hrange p Hin). cbn in Hrange. lia.
    + exists (wrapped <$> preds). rewrite loop_ok by done. split; [done|].
      intros i p Hi Hneg. rewrite list_lookup_fmap, Hi. cbn.
      rewrite Forall_lookup in Hrange. specialize (Hrange i p Hi). cbn in Hrange.
      assert (p = -2 ∨ p = -1) as [-> | ->] by lia; reflexivity.
Qed.

End Facts.

Lemma run_returns_class_labels_witness :
  ∃ labels : list string,
    (run (L := toy_libs) toy_request (toy_world glucose_rule)).1
      = Ok (toy_dumps (JList (JStr <$> labels))) ∧
    length labels = 2%nat ∧
    ∀ i p, [0; 1] !! i = Some p →
      (p = 0 → labels !! i = Some "not-diabetic") ∧
      (p = 1 → labels !! i = Some "diabetic").
Proof.
  apply (run_returns_class_labels (L := toy_libs) (toy_world glucose_rule)
           glucose_rule toy_request {[ "data" := JList toy_rows ]} toy_rows
           (toy_row <$> toy_rows) [0; 1]).
  - reflexivity.
  - vm_compute. reflexivity.
  - vm_compute. reflexivity.
  - reflexivity.
  - vm_compute. reflexivity.
  - reflexivity.
  - constructor; [left; reflexivity|].
    constructor; [right; reflexivity|]. constructor.
Defined.

Lemma run_raises_library_errors_witness :
  (run (L := toy_libs) "{}" (toy_world glucose_rule)).1 = Raise (KeyError "data") ∧
  model (run (L := toy_libs) "{}" (toy_world glucose_rule)).2 = Some glucose_rule ∧
  (run (L := toy_libs) "{}" (toy_world glucose_rule)).2 = toy_world glucose_rule.
Proof.
  apply (run_raises_library_errors (L := toy_libs) (toy_world glucose_rule) "{}").
  apply (no_data_key (L := toy_libs) _ _ ∅); vm_compute; reflexivity.
Defined.

Lemma label_outside_0_1_witness :
  (∀ p, 0 ≤ p < Z.of_nat (length classnames) ↔ p = 0 ∨ p = 1) ∧
  ((Exists (λ p, p < -2 ∨ 1 < p) [0; 2] ∧
    (run (L := toy_libs) toy_request (toy_world three_class_rule)).1
      = Raise IndexError)
   ∨ (Exists (λ p, p = -1 ∨ p = -2) [0; 2] ∧
      ∃ labels : list string,
        (run (L := toy_libs) toy_request (toy_world three_class_rule)).1
          = Ok (toy_dumps (JList (JStr <$> labels))) ∧
        ∀ i p, [0; 2] !! i = Some p → p < 0 →
               labels !! i = classnames !! Z.to_nat (p + 2))).
Proof.
  apply (label_outside_0_1 (L := toy_libs) (toy_world three_class_rule)
           three_class_rule toy_request (JDict {[ "data" := JList toy_rows ]})
           (JList toy_rows) (toy_row <$> toy_rows) [0; 2]).
  - reflexivity.
  - vm_compute. reflexivity.
  - vm_compute. reflexivity.
  - reflexivity.
  - vm_compute. reflexivity.
  - apply Exists_cons_tl, Exists_cons_hd. split; discriminate.
Defined.

Example three_class_model_raises :
  run (L := toy_libs) toy_request (toy_world three_class_rule)
  = (Raise IndexError,
     @World toy_libs (Some three_class_rule)
       ["Data:<data> - Predictions:<predictions>"]).
Proof. vm_compute. reflexivity. Qed.

End ServiceFacts.

(** ** The training scripts *)

Module TrainingFacts.
Import Training.

Section Facts.
Context `{P : Platform}.

Ltac prim :=
  cbv [parse_args get_context print listdir read_csv concat input_dataframe
       train_test_split fit predict predict_proba average roc_auc_score
       roc_curve plt_figure current_figure on_current_figure plt_plot
       plt_xlabel plt_ylabel plt_title plt_show log log_image makedirs dump
       complete bind emit modify lift gets ret raise set_figures];
  cbn [trace global_rng dirs files scalars images figures gcf completed].

Ltac step_with H :=
  erewrite bind_ok; [|solve [prim; rewrite ?H; reflexivity]]; cbv beta iota.

Ltac step := erewrite bind_ok; [|solve [prim; reflexivity]]; cbv beta iota.

Lemma truediv_nonzero (a b : Q) : ¬ (b == 0)%Q → truediv a b = Ok (a / b)%Q.
Proof.
  intros Hb. unfold truediv. destruct (Qeq_bool b 0) eqn:E; [|done].
  by apply Qeq_bool_iff in E.
Qed.

Lemma np_equal_same_length (a b : vector) :
  length a = length b → np_equal a b = Ok (zip_with Qeq_bool a b).
Proof. intros H. unfold np_equal. by rewrite H, Nat.eqb_refl. Qed.

(** Reading every entry of the folder. *)
Lemma read_all_ok folder (all_files paths : list string) (frames : list frame)
    (acc : list frame) (w : world) :
  Forall2 (λ f p, path_join folder f = Ok p) all_files paths →
  Forall2 (λ p df, pd_read_csv p = Ok df) paths frames →
  for_each all_files
    (λ acc csv_file,
       let! path := lift (path_join folder csv_file) in
       let! df := read_csv path in
       ret (acc ++ [df]))%comp acc w
  = (Ok (acc ++ frames),
     {| trace := trace w ++ (EvReadCsv <$> paths);
        global_rng := global_rng w; dirs := dirs w; files := files w;
        scalars := scalars w; images := images w; figures := figures w;
        gcf := gcf w; completed := completed w |}).
Proof.
  intros Hp. revert frames acc w.
  induction Hp as [|f p all_files paths Hf _ IH]; intros frames acc w Hr.
  - inversion Hr; subst. cbn. rewrite !app_nil_r. by destruct w.
  - inversion Hr as [|? df ? frames' Hdf Hr']; subst. cbn [for_each].
    erewrite bind_ok; [|step_with Hf; step_with Hdf; reflexivity].
    rewrite (IH _ _ _ Hr'). cbn [trace global_rng dirs files scalars images figures gcf completed].
    rewrite <- !app_assoc. reflexivity.
Qed.

Lemma datastore_run argv (w : world) all_files paths frames a :
  datastore_ok argv w all_files paths frames a →
  datastore_script argv w = (Ok tt, datastore_final argv paths frames a w).
Proof.
  intros [Hfiles Hpaths Hframes Hframe Hreg
            [HX Hy Hsplit Hmodel Hhat Hlen Hscores Hpos Hauc] [Hmk Hdump Hdone]].
  unfold datastore_script.
  step. step. step. cbn [reg_rate data_folder].
  step_with Hfiles.
  erewrite bind_ok; [|unfold read_all; by apply read_all_ok]. cbn [app].
  step_with Hframe. step_with HX. step_with Hy.
  step_with Hsplit. step. step.
  erewrite bind_ok; [|prim; fold (reg_of argv); rewrite truediv_nonzero by done; reflexivity].
  fold (reg_of argv).
  step_with Hmodel. step_with Hhat.
  erewrite bind_ok; [|prim; rewrite np_equal_same_length by done; reflexivity].
  fold (hits a).
  step. step. step. step_with Hscores. step_with Hpos. step_with Hauc.
  step. step. step_with Hmk. step_with Hdump.
  prim. rewrite Hdone.
  unfold datastore_final, datastore_events, evaluation_events, saving_events, np_float.
  f_equal. f_equal; rewrite <- ?app_assoc; reflexivity.
Qed.

Lemma alter_last {A} (f : A → A) (l : list A) (x : A) :
  alter f (length l) (l ++ [x]) = l ++ [f x].
Proof. rewrite alter_app_r_alt by lia. by rewrite Nat.sub_diag. Qed.

Lemma lookup_last {A} (l : list A) (x : A) : (l ++ [x]) !! length l = Some x.
Proof. by rewrite list_lookup_middle. Qed.

Lemma tree_run (w : world) ds a fpr tpr thresholds :
  tree_ok w ds a fpr tpr thresholds →
  tree_script w = (Ok tt, tree_final a fpr tpr w).
Proof.
  intros [Hds Hdf [HX Hy Hsplit Hmodel Hhat Hlen Hscores Hpos Hauc] Hcurve
            [Hmk Hdump Hdone]].
  unfold tree_script.
  step. step.
  erewrite bind_ok; [|prim; rewrite Hds; prim; rewrite Hdf; reflexivity].
  step_with HX. step_with Hy. step_with Hsplit. step.
  step_with Hmodel. step_with Hhat.
  erewrite bind_ok; [|prim; rewrite np_equal_same_length by done; reflexivity].
  fold (hits a).
  step. step. step. step_with Hscores. step_with Hpos. step_with Hauc.
  step. step. step_with Hpos. step_with Hcurve.
  step. step. step. step. step. step.
  rewrite !alter_last.
  erewrite bind_ok; [|prim; rewrite lookup_last; prim; reflexivity].
  step. step_with Hmk. step_with Hdump.
  prim. rewrite Hdone.
  unfold tree_final, tree_events, evaluation_events, plotting_events,
    saving_events, np_float.
  f_equal. f_equal; rewrite <- ?app_assoc; reflexivity.
Qed.


(** **** Facts about the numeric helpers *)

Lemma column1_spec (scores : matrix) (v : vector) :
  column1 scores = Ok v → Forall2 (λ row s, row !! 1%nat = Some s) scores v.
Proof.
  revert v. induction scores as [|row rest IH]; intros v H; cbn in H.
  - injection H as <-. constructor.
  - destruct (row !! 1%nat) as [x|] eqn:Hx; [|done].
    destruct (column1 rest) as [xs|]; [|done].
    injection H as <-. constructor; [done|by apply IH].
Qed.

Lemma count_true_zip_with (a b : vector) :
  count_true (zip_with Qeq_bool a b) = agreeing_rows a b.
Proof.
  unfold count_true, agreeing_rows. revert b.
  induction a as [|x a IH]; intros [|y b]; try done.
  cbn [zip_with]. rewrite !filter_cons. cbn [fst snd].
  destruct (Qeq_bool x y) eqn:E.
  - rewrite !decide_True by done. cbn [length]. by rewrite IH.
  - rewrite !decide_False by done. apply IH.
Qed.

Lemma np_average_hits (a : answers) :
  length (a_y_hat a) = length (a_y_test a) →
  np_average (hits a)
  = (inject_Z (Z.of_nat (agreeing_rows (a_y_hat a) (a_y_test a)))
     / inject_Z (Z.of_nat (length (a_y_test a))))%Q.
Proof.
  intros Hlen. unfold np_average, hits.
  rewrite count_true_zip_with, length_zip_with, Hlen, Nat.min_id. done.
Qed.

Lemma new_events_app {A} (m : comp world A) (w : world) (evs : list event) :
  trace (m w).2 = trace w ++ evs → new_events m w = evs.
Proof. intros H. unfold new_events. rewrite H. apply drop_app_length. Qed.

Lemma datastore_new_events argv (w : world) all_files paths frames a :
  datastore_ok argv w all_files paths frames a →
  new_events (datastore_script argv) w = datastore_events argv paths frames a.
Proof. intros H. apply new_events_app. by rewrite (datastore_run _ _ _ _ _ _ H). Qed.

Lemma tree_new_events (w : world) ds a fpr tpr thresholds :
  tree_ok w ds a fpr tpr thresholds →
  new_events tree_script w = tree_events a fpr tpr.
Proof. intros H. apply new_events_app. by rewrite (tree_run _ _ _ _ _ _ H). Qed.

(** **** The order of the steps *)

(** C2 (amended).  On a run of either training script where every
    library call answers, the script returns, and its steps are exactly
    these, in this order: (datastore script only: parse the arguments)
    get the run context, load the data, split, (datastore script only:
    log the regularization rate) fit, predict, compute the accuracy and
    log it at once, predict_proba, compute the AUC and log it at once,
    (tree script only: plot the ROC curve and log the image) create the
    output folder, serialize the fitted model, complete the run.  Every
    scalar is logged before the model is serialized. *)
Theorem steps_as_executed :
  (∀ argv (w : world) all_files paths frames a,
     datastore_ok argv w all_files paths frames a →
     (datastore_script argv w).1 = Ok tt ∧
     step_of <$> new_events (datastore_script argv) w
     = [ParseArgs; GetContext; PrintLine; LoadData]
       ++ replicate (length all_files) LoadData
       ++ [LoadData; Split; PrintLine; LogScalar; Fit;
           Predict; Accuracy; PrintLine; LogScalar;
           PredictProba; Auc; PrintLine; LogScalar;
           Serialize; Serialize; Complete]) ∧
  (∀ (w : world) ds a fpr tpr thresholds,
     tree_ok w ds a fpr tpr thresholds →
     (tree_script w).1 = Ok tt ∧
     step_of <$> new_events tree_script w
     = [GetContext; PrintLine; LoadData; Split; PrintLine; Fit;
        Predict; Accuracy; PrintLine; LogScalar;
        PredictProba; Auc; PrintLine; LogScalar;
        Plot; Plot; Plot; Plot; Plot; Plot; Plot; LogImage; Plot;
        Serialize; Serialize; Complete]).
Proof.
  split.
  - intros argv w all_files paths frames a Hd.
    rewrite (datastore_new_events _ _ _ _ _ _ Hd), (datastore_run _ _ _ _ _ _ Hd).
    split; [done|]. unfold datastore_events.
    rewrite (Forall2_length _ _ _ (got_paths _ _ _ _ _ _ Hd)).
    assert (step_of <$> (EvReadCsv <$> paths) = replicate (length paths) LoadData)
      as Hreads.
    { clear. induction paths as [|p paths IH]; [done|]. cbn. by rewrite IH. }
    rewrite !fmap_app, Hreads. reflexivity.
  - intros w ds a fpr tpr thresholds Ht.
    rewrite (tree_new_events _ _ _ _ _ _ Ht), (tree_run _ _ _ _ _ _ Ht). done.
Qed.

(** **** The two metrics *)

(** C3.  On a run of either training script where every library call
    answers, the script logs exactly two evaluation metrics as scalars of
    the run: "Accuracy", the number of test rows whose predicted label
    equals the true label divided by the number of test rows, and "AUC",
    the value of [roc_auc_score] on the test labels and column 1 (the
    positive class) of [predict_proba] on the test rows.  (The datastore
    script logs its regularization rate before them.)  Each script is
    taken on its own. *)
Theorem two_metrics_logged :
  let accuracy (x : answers) :=
    (inject_Z (Z.of_nat (agreeing_rows (a_y_hat x) (a_y_test x)))
     / inject_Z (Z.of_nat (length (a_y_test x))))%Q in
  let evaluated (x : answers) :=
    sk_predict (a_model x) (a_X_test x) = Ok (a_y_hat x) ∧
    sk_predict_proba (a_model x) (a_X_test x) = Ok (a_scores x) ∧
    Forall2 (λ row s, row !! 1%nat = Some s) (a_scores x) (a_positive x) ∧
    sk_roc_auc_score (a_y_test x) (a_positive x) = Ok (a_auc x) in
  (∀ argv (w : world) all_files paths frames a,
     datastore_ok argv w all_files paths frames a →
     (datastore_script argv w).1 = Ok tt ∧
     scalars (datastore_script argv w).2
     = scalars w ++ [("Regularization Rate", reg_of argv);
                     ("Accuracy", accuracy a); ("AUC", a_auc a)] ∧
     evaluated a) ∧
  (∀ (w : world) ds a fpr tpr thresholds,
     tree_ok w ds a fpr tpr thresholds →
     (tree_script w).1 = Ok tt ∧
     scalars (tree_script w).2
     = scalars w ++ [("Accuracy", accuracy a); ("AUC", a_auc a)] ∧
     evaluated a).
Proof.
  intros accuracy evaluated.
  assert (∀ est g a, trained est g a → evaluated a) as Hev.
  { intros est g a Ha. destruct Ha. unfold evaluated. eauto using column1_spec. }
  split.
  - intros argv w all_files paths frames a Hd.
    pose proof (got_trained _ _ _ _ _ _ Hd) as Ha.
    rewrite (datastore_run _ _ _ _ _ _ Hd). split; [done|]. split; [|by eapply Hev].
    cbn. by rewrite (np_average_hits a (same_length _ _ _ Ha)).
  - intros w ds a fpr tpr thresholds Ht.
    pose proof (got_tree _ _ _ _ _ _ Ht) as Ha.
    rewrite (tree_run _ _ _ _ _ _ Ht). split; [done|]. split; [|by eapply Hev].
    cbn. by rewrite (np_average_hits a (same_length _ _ _ Ha)).
Qed.

(** **** The model artifact *)

(** C4.  On a run of either training script where every library call
    answers, the script leaves in the file [outputs/diabetes_model.pkl]
    the very classifier that [fit] returned -- the one [predict] and
    [predict_proba] were called on for the reported metrics, and the one
    handed to [joblib.dump] -- and writes no other file.  Each script is
    taken on its own. *)
Theorem fitted_model_is_saved :
  (∀ argv (w : world) all_files paths frames a,
     datastore_ok argv w all_files paths frames a →
     sk_fit (LogisticRegression (1 / reg_of argv) "liblinear") (global_rng w)
       (a_X_train a) (a_y_train a) = Ok (a_model a) ∧
     files (datastore_script argv w).2
     = <[ "outputs/diabetes_model.pkl" := a_model a ]> (files w) ∧
     "outputs" ∈ dirs (datastore_script argv w).2 ∧
     EvPredict (a_model a) (a_X_test a) ∈ new_events (datastore_script argv) w ∧
     EvPredictProba (a_model a) (a_X_test a) ∈ new_events (datastore_script argv) w ∧
     EvDump (a_model a) "outputs/diabetes_model.pkl"
       ∈ new_events (datastore_script argv) w) ∧
  (∀ (w : world) ds a fpr tpr thresholds,
     tree_ok w ds a fpr tpr thresholds →
     sk_fit DecisionTreeClassifier (global_rng w)
       (a_X_train a) (a_y_train a) = Ok (a_model a) ∧
     files (tree_script w).2
     = <[ "outputs/diabetes_model.pkl" := a_model a ]> (files w) ∧
     "outputs" ∈ dirs (tree_script w).2 ∧
     EvPredict (a_model a) (a_X_test a) ∈ new_events tree_script w ∧
     EvPredictProba (a_model a) (a_X_test a) ∈ new_events tree_script w ∧
     EvDump (a_model a) "outputs/diabetes_model.pkl" ∈ new_events tree_script w).
Proof.
  split.
  - intros argv w all_files paths frames a Hd.
    rewrite (datastore_new_events _ _ _ _ _ _ Hd), (datastore_run _ _ _ _ _ _ Hd).
    split; [apply (got_model _ _ _ (got_trained _ _ _ _ _ _ Hd))|].
    split; [done|]. split; [cbn; set_solver|].
    unfold datastore_events, evaluation_events, saving_events, model_file.
    repeat split; rewrite !elem_of_app, !elem_of_cons; tauto.
  - intros w ds a fpr tpr thresholds Ht.
    rewrite (tree_new_events _ _ _ _ _ _ Ht), (tree_run _ _ _ _ _ _ Ht).
    split; [apply (got_model _ _ _ (got_tree _ _ _ _ _ _ Ht))|].
    split; [done|]. split; [cbn; set_solver|].
    unfold tree_events, evaluation_events, saving_events, model_file.
    repeat split; rewrite !elem_of_app, !elem_of_cons; tauto.
Qed.

(** **** The regularization rate *)

Lemma truediv_zero (a b : Q) : (b == 0)%Q → truediv a b = Raise ZeroDivisionError.
Proof. intros Hb. unfold truediv. by rewrite (proj2 (Qeq_bool_iff b 0) Hb). Qed.

(** C7.  In the datastore script the parsed rate [reg] is the value of
    [--regularization], or 0.01 when the flag is absent.  When [reg] is
    not zero the division [1 / reg] succeeds (and [1 / reg * reg] is 1),
    the classifier fitted is [LogisticRegression(C = 1 / reg,
    solver = "liblinear")], and [reg] itself is the first scalar logged,
    under the name "Regularization Rate". *)
Theorem regularization_wiring argv (w : world) all_files paths frames a :
  datastore_ok argv w all_files paths frames a →
  (parse_args argv w).1
  = Ok {| reg_rate := default (1 # 100)%Q (cli_regularization argv);
          data_folder := cli_data_folder argv |} ∧
  (cli_regularization argv = None → reg_of argv = (1 # 100)%Q) ∧
  truediv 1 (reg_of argv) = Ok (1 / reg_of argv)%Q ∧
  (1 / reg_of argv * reg_of argv == 1)%Q ∧
  (datastore_script argv w).1 = Ok tt ∧
  EvFit (LogisticRegression (1 / reg_of argv) "liblinear")
    (a_X_train a) (a_y_train a) ∈ new_events (datastore_script argv) w ∧
  ∃ more, scalars (datastore_script argv w).2
          = scalars w ++ ("Regularization Rate", reg_of argv) :: more.
Proof.
  intros Hd. pose proof (reg_nonzero _ _ _ _ _ _ Hd) as Hreg.
  split; [done|]. split; [by unfold reg_of; intros ->|].
  split; [by apply truediv_nonzero|].
  split; [by field|].
  rewrite (datastore_new_events _ _ _ _ _ _ Hd), (datastore_run _ _ _ _ _ _ Hd).
  split; [done|]. split.
  - unfold datastore_events, evaluation_events.
    rewrite !elem_of_app, !elem_of_cons; tauto.
  - by eexists.
Qed.

(** **** Plotting *)











(** **** The split does not depend on the run *)










(** **** Columns and loading *)

Lemma index_of_Some (c : string) (cols : list string) (j : nat) :
  index_of c cols = Some j → cols !! j = Some c.
Proof.
  revert j. induction cols as [|c' cols IH]; intros j H; cbn in H; [done|].
  destruct (String.eqb_spec c c') as [->|Hne].
  - by injection H as <-.
  - destruct (index_of c cols) as [i|]; [|done].
    injection H as <-. by apply IH.
Qed.

Lemma index_of_None (c : string) (cols : list string) :
  index_of c cols = None → c ∉ cols.
Proof.
  induction cols as [|c' cols IH]; intros H; cbn in H; [by apply not_elem_of_nil|].
  destruct (String.eqb_spec c c') as [->|Hne]; [done|].
  destruct (index_of c cols) as [i|]; [done|].
  apply not_elem_of_cons. split; [done|by apply IH].
Qed.

Lemma column_index_raise (df : frame) (c : string) e :
  column_index df c = Raise e → e = KeyError c ∧ c ∉ columns df.
Proof.
  unfold column_index. destruct (index_of c (columns df)) eqn:E; [done|].
  intros [= <-]. split; [done|by apply index_of_None].
Qed.

Lemma column_index_ok (df : frame) (c : string) j :
  column_index df c = Ok j →
  c ∈ columns df ∧ ∀ r, cell j r = at_column df c r.
Proof.
  unfold column_index, at_column.
  destruct (index_of c (columns df)) as [i|] eqn:E; [|done].
  intros [= <-]. split; [|done].
  apply list_elem_of_lookup. exists i. by apply index_of_Some.
Qed.

Lemma values_of_columns_ok (df : frame) (cs : list string) (X : matrix) :
  values_of_columns df cs = Ok X →
  Forall (λ c, c ∈ columns df) cs ∧
  X = (λ r, (λ c, at_column df c r) <$> cs) <$> records df.
Proof.
  unfold values_of_columns.
  destruct (column_indices df cs) as [js|] eqn:Hjs; [|done]. intros [= <-].
  assert (Forall (λ c, c ∈ columns df) cs ∧
          ∀ r, (λ j, cell j r) <$> js = (λ c, at_column df c r) <$> cs) as [Hin Hrow].
  { revert js Hjs. induction cs as [|c cs IH]; intros js Hjs; cbn in Hjs.
    - injection Hjs as <-. by split.
    - destruct (column_index df c) as [j|] eqn:Hj; [|done].
      destruct (column_indices df cs) as [js1|]; [|done].
      injection Hjs as <-. destruct (IH js1 eq_refl) as [Hin Hrow].
      destruct (column_index_ok _ _ _ Hj) as [Hc Hcell].
      split; [by constructor|]. intros r. cbn. by rewrite Hcell, Hrow. }
  split; [done|]. apply list_fmap_ext. intros _ r _. apply Hrow.
Qed.

Lemma values_of_columns_raise (df : frame) (cs : list string) e :
  values_of_columns df cs = Raise e →
  ∃ c, e = KeyError c ∧ c ∈ cs ∧ c ∉ columns df.
Proof.
  unfold values_of_columns.
  destruct (column_indices df cs) as [js|e1] eqn:Hjs; [done|]. intros [= <-].
  induction cs as [|c cs IH]; cbn in Hjs; [done|].
  destruct (column_index df c) as [j|e2] eqn:Hj.
  - destruct (column_indices df cs) as [js1|e3]; [done|].
    injection Hjs as <-. destruct (IH eq_refl) as (c1 & -> & Hin & Hout).
    exists c1. split; [done|]. split; [by apply list_elem_of_further|done].
  - injection Hjs as <-. destruct (column_index_raise _ _ _ Hj) as [-> Hout].
    exists c. split; [done|]. split; [by apply list_elem_of_here|done].
Qed.

Lemma values_of_column_ok (df : frame) (c : string) (y : vector) :
  values_of_column df c = Ok y →
  c ∈ columns df ∧ y = at_column df c <$> records df.
Proof.
  unfold values_of_column. destruct (column_index df c) as [j|] eqn:Hj; [|done].
  intros [= <-]. destruct (column_index_ok _ _ _ Hj) as [Hc Hcell].
  split; [done|]. apply list_fmap_ext. intros _ r _. apply Hcell.
Qed.

Lemma values_of_column_raise (df : frame) (c : string) e :
  values_of_column df c = Raise e → e = KeyError c ∧ c ∉ columns df.
Proof.
  unfold values_of_column. destruct (column_index df c) as [j|e1] eqn:Hj; [done|].
  intros [= <-]. by apply column_index_raise.
Qed.

(** A frame that lacks a needed column makes the selection raise. *)
Lemma selection_raises (df : frame) (c : string) :
  c ∈ needed_columns → c ∉ columns df →
  ∃ c1, c1 ∈ needed_columns ∧ (c1 ∉ columns df) ∧
        ((values_of_columns df feature_columns = Raise (KeyError c1)) ∨
         (∃ X, values_of_columns df feature_columns = Ok X ∧
               values_of_column df "Diabetic" = Raise (KeyError c1))).
Proof.
  intros Hc Hout. unfold needed_columns in *.
  destruct (values_of_columns df feature_columns) as [X|e] eqn:HX.
  - destruct (values_of_columns_ok _ _ _ HX) as [Hall _].
    apply elem_of_app in Hc as [Hc|Hc].
    { rewrite Forall_forall in Hall. by specialize (Hall c Hc). }
    apply list_elem_of_singleton in Hc as ->.
    destruct (values_of_column df "Diabetic") as [y|e] eqn:Hy.
    { by destruct (values_of_column_ok _ _ _ Hy). }
    destruct (values_of_column_raise _ _ _ Hy) as [-> _].
    exists "Diabetic". split; [apply elem_of_app; right; by constructor|].
    split; [done|]. right. by exists X.
  - destruct (values_of_columns_raise _ _ _ HX) as (c1 & -> & Hin & Hout1).
    exists c1. split; [apply elem_of_app; by left|]. split; [done|]. by left.
Qed.

Lemma read_all_raise folder (pre post : list string) f (paths : list string)
    (frames : list frame) p e (w : world) :
  reads_ok folder pre paths frames →
  path_join folder f = Ok p →
  pd_read_csv p = Raise e →
  (read_all folder (pre ++ f :: post) w).1 = Raise e.
Proof.
  intros [Hp Hr] Hf He. unfold read_all.
  set (body := λ (acc : list frame) (csv_file : string), _).
  generalize (@nil frame) as acc0.
  revert frames w Hr. induction Hp as [|f1 p1 pre paths Hf1 _ IH];
    intros frames w Hr acc0.
  - cbn [app for_each]. unfold body at 1.
    erewrite bind_raise; [done|]. step_with Hf.
    erewrite bind_raise; [done|]. prim. rewrite He. reflexivity.
  - inversion Hr as [|? df ? frames1 Hdf Hr1]; subst. cbn [app for_each].
    erewrite bind_ok; [|unfold body; step_with Hf1; step_with Hdf; reflexivity].
    by eapply IH.
Qed.

Lemma datastore_read_fails argv (w : world) pre f post paths frames p e :
  os_listdir (cli_data_folder argv) = Ok (pre ++ f :: post) →
  reads_ok (cli_data_folder argv) pre paths frames →
  path_join (cli_data_folder argv) f = Ok p →
  pd_read_csv p = Raise e →
  (datastore_script argv w).1 = Raise e.
Proof.
  intros Hfiles Hreads Hf He. unfold datastore_script.
  step. step. step. cbn [reg_rate data_folder]. step_with Hfiles.
  unfold bind at 1.
  match goal with |- context [read_all ?d ?l ?w0] =>
    pose proof (read_all_raise d pre post f paths frames p e w0 Hreads Hf He) as H;
    destruct (read_all d l w0) as [[?|?] ?]; cbn in H |- *; [done|by injection H as ->]
  end.
Qed.

Lemma datastore_column_missing argv (w : world) all_files paths frames df c :
  os_listdir (cli_data_folder argv) = Ok all_files →
  reads_ok (cli_data_folder argv) all_files paths frames →
  pd_concat frames = Ok df →
  c ∈ needed_columns → c ∉ columns df →
  ∃ c1, c1 ∈ needed_columns ∧ (c1 ∉ columns df) ∧
        (datastore_script argv w).1 = Raise (KeyError c1).
Proof.
  intros Hfiles [Hp Hr] Hdf Hc Hout.
  destruct (selection_raises df c Hc Hout) as (c1 & Hc1 & Hout1 & Hsel).
  exists c1. split; [done|]. split; [done|]. unfold datastore_script.
  step. step. step. cbn [reg_rate data_folder]. step_with Hfiles.
  erewrite bind_ok; [|unfold read_all; by apply read_all_ok]. cbn [app].
  step_with Hdf.
  destruct Hsel as [HX|(X & HX & Hy)].
  - erewrite bind_raise; [done|]. prim. by rewrite HX.
  - step_with HX. erewrite bind_raise; [done|]. prim. by rewrite Hy.
Qed.

Lemma tree_column_missing (w : world) ds df c :
  run_input_datasets !! "diabetes" = Some ds →
  to_pandas_dataframe ds = Ok df →
  c ∈ needed_columns → c ∉ columns df →
  ∃ c1, c1 ∈ needed_columns ∧ (c1 ∉ columns df) ∧
        (tree_script w).1 = Raise (KeyError c1).
Proof.
  intros Hds Hdf Hc Hout.
  destruct (selection_raises df c Hc Hout) as (c1 & Hc1 & Hout1 & Hsel).
  exists c1. split; [done|]. split; [done|]. unfold tree_script.
  step. step.
  erewrite bind_ok; [|prim; rewrite Hds; prim; rewrite Hdf; reflexivity].
  destruct Hsel as [HX|(X & HX & Hy)].
  - erewrite bind_raise; [done|]. prim. by rewrite HX.
  - step_with HX. erewrite bind_raise; [done|]. prim. by rewrite Hy.
Qed.

Lemma index_of_first (c : string) (cols : list string) (j : nat) :
  first_at cols c j → index_of c cols = Some j.
Proof.
  revert j. induction cols as [|c1 cols IH]; intros j [Hj Hfirst]; [done|].
  cbn [index_of]. destruct (String.eqb_spec c c1) as [->|Hne].
  - destruct j as [|j]; [done|]. by destruct (Hfirst 0%nat ltac:(lia)).
  - destruct j as [|j]; [cbn in Hj; congruence|].
    rewrite (IH j); [done|]. split; [exact Hj|].
    intros i Hi. apply (Hfirst (S i)). lia.
Qed.

(** The cell under a column is the entry of the record at the position
    where the column label first stands. *)
Lemma at_column_first (df : frame) (c : string) (j : nat) (r : list Q) (v : Q) :
  first_at (columns df) c j → r !! j = Some v → at_column df c r = v.
Proof.
  intros Hc Hv. unfold at_column, cell. rewrite (index_of_first _ _ _ Hc).
  by apply nth_lookup_Some with (d := 0%Q) in Hv.
Qed.

Lemma selected_cells (df : frame) (X : matrix) (y : vector) :
  values_of_columns df feature_columns = Ok X →
  values_of_column df "Diabetic" = Ok y →
  X = (λ r, [at_column df "Pregnancies" r;
             at_column df "PlasmaGlucose" r;
             at_column df "DiastolicBloodPressure" r;
             at_column df "TricepsThickness" r;
             at_column df "SerumInsulin" r;
             at_column df "BMI" r;
             at_column df "DiabetesPedigree" r;
             at_column df "Age" r]) <$> records df ∧
  y = at_column df "Diabetic" <$> records df.
Proof.
  intros HX Hy.
  destruct (values_of_columns_ok _ _ _ HX) as [_ ->].
  by destruct (values_of_column_ok _ _ _ Hy) as [_ ->].
Qed.

(** C10 (amended).  In both scripts the feature matrix has, for every
    record of the dataframe, the cells of the eight columns Pregnancies,
    PlasmaGlucose, DiastolicBloodPressure, TricepsThickness,
    SerumInsulin, BMI, DiabetesPedigree, Age, in that order, and the
    label vector has the cell of the column Diabetic; the cell of a
    column is the entry of the record at the position of the column
    label.  The datastore script lists the folder, reads every entry,
    joined to the folder name, with [read_csv], in listing order, and
    concatenates all the frames read.  An entry on which [read_csv]
    raises makes the script raise that error, and a concatenated frame
    lacking one of the nine columns makes it raise KeyError.  (An entry
    that is not a CSV file but that [read_csv] parses does not make
    loading fail.)  Each script is taken on its own. *)
Theorem features_label_and_loading :
  let features (df : frame) : matrix :=
    (λ r, [at_column df "Pregnancies" r;
           at_column df "PlasmaGlucose" r;
           at_column df "DiastolicBloodPressure" r;
           at_column df "TricepsThickness" r;
           at_column df "SerumInsulin" r;
           at_column df "BMI" r;
           at_column df "DiabetesPedigree" r;
           at_column df "Age" r]) <$> records df in
  let labels (df : frame) : vector := at_column df "Diabetic" <$> records df in
  (∀ df c j r v,
     first_at (columns df) c j → r !! j = Some v → at_column df c r = v) ∧
  (∀ argv (w : world) all_files paths frames a,
     datastore_ok argv w all_files paths frames a →
     a_X a = features (a_frame a) ∧
     a_y a = labels (a_frame a) ∧
     EvSplit (a_X a) (a_y a) (3 # 10)%Q (Some 0)
       ∈ new_events (datastore_script argv) w ∧
     (∃ rest,
        new_events (datastore_script argv) w
        = [EvParseArgs argv; EvGetContext;
           EvPrint [PStr "Loading data from"; pyobj_of_folder (cli_data_folder argv)];
           EvListdir (cli_data_folder argv)]
          ++ (EvReadCsv <$> paths) ++ EvConcat frames :: rest) ∧
     Forall2 (λ f p, ∃ d, cli_data_folder argv = Some d ∧ p = os_path_join d f)
       all_files paths ∧
     Forall2 (λ p df, pd_read_csv p = Ok df) paths frames ∧
     pd_concat frames = Ok (a_frame a)) ∧
  (∀ (w : world) ds a fpr tpr thresholds,
     tree_ok w ds a fpr tpr thresholds →
     run_input_datasets !! "diabetes" = Some ds ∧
     to_pandas_dataframe ds = Ok (a_frame a) ∧
     a_X a = features (a_frame a) ∧
     a_y a = labels (a_frame a) ∧
     EvSplit (a_X a) (a_y a) (3 # 10)%Q (Some 0) ∈ new_events tree_script w) ∧
  (∀ argv (w : world) pre f post ps fs p e,
     os_listdir (cli_data_folder argv) = Ok (pre ++ f :: post) →
     reads_ok (cli_data_folder argv) pre ps fs →
     path_join (cli_data_folder argv) f = Ok p →
     pd_read_csv p = Raise e →
     (datastore_script argv w).1 = Raise e) ∧
  (∀ argv (w : world) entries ps fs df c,
     os_listdir (cli_data_folder argv) = Ok entries →
     reads_ok (cli_data_folder argv) entries ps fs →
     pd_concat fs = Ok df →
     c ∈ needed_columns → c ∉ columns df →
     ∃ c1, c1 ∈ needed_columns ∧ (c1 ∉ columns df) ∧
           (datastore_script argv w).1 = Raise (KeyError c1)).
Proof.
  intros features labels. split; [exact at_column_first|].
  split; [|split; [|split]].
  - intros argv w all_files paths frames a Hd.
    pose proof (got_trained _ _ _ _ _ _ Hd) as Ha.
    destruct (selected_cells _ _ _ (got_X _ _ _ Ha) (got_y _ _ _ Ha)) as [HX Hy].
    split; [exact HX|]. split; [exact Hy|].
    rewrite (datastore_new_events _ _ _ _ _ _ Hd).
    split.
    { unfold datastore_events, evaluation_events.
      rewrite !elem_of_app, !elem_of_cons; tauto. }
    split; [by eexists|].
    split.
    { eapply Forall2_impl; [exact (got_paths _ _ _ _ _ _ Hd)|].
      intros f p. unfold path_join.
      destruct (cli_data_folder argv) as [d|]; [|done].
      intros [= <-]. by exists d. }
    split; [exact (got_frames _ _ _ _ _ _ Hd)|exact (got_frame _ _ _ _ _ _ Hd)].
  - intros w ds a fpr tpr thresholds Ht.
    pose proof (got_tree _ _ _ _ _ _ Ht) as Ha.
    split; [exact (got_dataset _ _ _ _ _ _ Ht)|].
    split; [exact (got_dataframe _ _ _ _ _ _ Ht)|].
    destruct (selected_cells _ _ _ (got_X _ _ _ Ha) (got_y _ _ _ Ha)) as [HX Hy].
    split; [exact HX|]. split; [exact Hy|].
    rewrite (tree_new_events _ _ _ _ _ _ Ht).
    unfold tree_events, evaluation_events.
    rewrite !elem_of_app, !elem_of_cons; tauto.
  - intros. by eapply datastore_read_fails.
  - intros. by eapply datastore_column_missing.
Qed.

End Facts.

(** **** The toy platforms answer every call *)

Lemma toy_trained_logistic :
  trained (P := toy_platform) (LogisticRegression (1 / (1 # 100)) "liblinear") 7
    toy_datastore_answers.
Proof. split; vm_compute; reflexivity. Qed.

Lemma toy_datastore_ok :
  datastore_ok (P := toy_platform) toy_argv (toy_world 7)
    ["a.csv"; "b.csv"] ["data/a.csv"; "data/b.csv"] toy_frames
    toy_datastore_answers.
Proof.
  split.
  - reflexivity.
  - repeat constructor.
  - repeat constructor.
  - reflexivity.
  - vm_compute. discriminate.
  - exact toy_trained_logistic.
  - split; reflexivity.
Qed.

(** The decision-tree script on the dataset of ten records. *)
Lemma toy_ten_tree_ok (g : Z) :
  tree_ok (P := toy_ten) (toy_start toy_ten g) toy_frame_ten toy_ten_answers
    [0; 0; 1]%Q [0; 1; 1]%Q [2; 1; 0]%Q.
Proof.
  split.
  - vm_compute. reflexivity.
  - reflexivity.
  - split; vm_compute; reflexivity.
  - reflexivity.
  - split; reflexivity.
Qed.


Lemma steps_as_executed_witness :
  ((datastore_script (P := toy_platform) toy_argv (toy_world 7)).1 = Ok tt ∧
   step_of <$> new_events (datastore_script toy_argv) (toy_world 7)
   = [ParseArgs; GetContext; PrintLine; LoadData]
     ++ replicate 2 LoadData
     ++ [LoadData; Split; PrintLine; LogScalar; Fit;
         Predict; Accuracy; PrintLine; LogScalar;
         PredictProba; Auc; PrintLine; LogScalar;
         Serialize; Serialize; Complete]) ∧
  ((tree_script (P := toy_ten) (toy_start toy_ten 7)).1 = Ok tt ∧
   step_of <$> new_events tree_script (toy_start toy_ten 7)
   = [GetContext; PrintLine; LoadData; Split; PrintLine; Fit;
      Predict; Accuracy; PrintLine; LogScalar;
      PredictProba; Auc; PrintLine; LogScalar;
      Plot; Plot; Plot; Plot; Plot; Plot; Plot; LogImage; Plot;
      Serialize; Serialize; Complete]).
Proof.
  split.
  - exact (proj1 (steps_as_executed (P := toy_platform))
             toy_argv (toy_world 7) _ _ _ _ toy_datastore_ok).
  - exact (proj2 (steps_as_executed (P := toy_ten))
             (toy_start toy_ten 7) _ _ _ _ _ (toy_ten_tree_ok 7)).
Defined.

(** The order the specification gives is not the order of the scripts.
    The datastore script, run on the folder [data] that holds the two
    CSV files, returns; it logs the accuracy (event 14) before it calls
    [predict_proba] (event 15), and "Accuracy" and "AUC" (event 18) are
    both logged before the model is serialized (event 20), not after. *)
Lemma spec_order_refuted :
  (datastore_script (P := toy_platform) toy_argv (toy_world 7)).1 = Ok tt ∧
  follows_spec_order
    (trace (datastore_script (P := toy_platform) toy_argv (toy_world 7)).2)
  = false ∧
  (∃ v1 v2 m X,
     trace (datastore_script (P := toy_platform) toy_argv (toy_world 7)).2 !! 14%nat
     = Some (EvLog "Accuracy" v1) ∧
     trace (datastore_script (P := toy_platform) toy_argv (toy_world 7)).2 !! 15%nat
     = Some (EvPredictProba m X) ∧
     trace (datastore_script (P := toy_platform) toy_argv (toy_world 7)).2 !! 18%nat
     = Some (EvLog "AUC" v2) ∧
     trace (datastore_script (P := toy_platform) toy_argv (toy_world 7)).2 !! 20%nat
     = Some (EvDump m "outputs/diabetes_model.pkl")).
Proof.
  split; [vm_compute; reflexivity|]. split; [vm_compute; reflexivity|].
  eexists _, _, _, _. repeat split; vm_compute; reflexivity.
Qed.

Lemma two_metrics_logged_witness :
  scalars (datastore_script (P := toy_platform) toy_argv (toy_world 7)).2
  = [("Regularization Rate", reg_of toy_argv);
     ("Accuracy",
      (inject_Z (Z.of_nat (agreeing_rows (a_y_hat toy_datastore_answers)
                                         (a_y_test toy_datastore_answers)))
       / inject_Z (Z.of_nat (length (a_y_test toy_datastore_answers))))%Q);
     ("AUC", a_auc toy_datastore_answers)] ∧
  scalars (tree_script (P := toy_ten) (toy_start toy_ten 7)).2
  = [("Accuracy",
      (inject_Z (Z.of_nat (agreeing_rows (a_y_hat toy_ten_answers)
                                         (a_y_test toy_ten_answers)))
       / inject_Z (Z.of_nat (length (a_y_test toy_ten_answers))))%Q);
     ("AUC", a_auc toy_ten_answers)].
Proof.
  split.
  - exact (proj1 (proj2 (proj1 (two_metrics_logged (P := toy_platform))
             toy_argv (toy_world 7) _ _ _ _ toy_datastore_ok))).
  - exact (proj1 (proj2 (proj2 (two_metrics_logged (P := toy_ten))
             (toy_start toy_ten 7) _ _ _ _ _ (toy_ten_tree_ok 7)))).
Defined.

Lemma fitted_model_is_saved_witness :
  files (datastore_script (P := toy_platform) toy_argv (toy_world 7)).2
    !! "outputs/diabetes_model.pkl" = Some (a_model toy_datastore_answers) ∧
  files (tree_script (P := toy_ten) (toy_start toy_ten 7)).2
    !! "outputs/diabetes_model.pkl" = Some (a_model toy_ten_answers).
Proof.
  destruct (proj1 (fitted_model_is_saved (P := toy_platform))
              toy_argv (toy_world 7) _ _ _ _ toy_datastore_ok) as (_ & Hd & _).
  destruct (proj2 (fitted_model_is_saved (P := toy_ten))
              (toy_start toy_ten 7) _ _ _ _ _ (toy_ten_tree_ok 7)) as (_ & Ht & _).
  rewrite Hd, Ht. split; apply lookup_insert_eq.
Defined.

Lemma regularization_wiring_witness :
  reg_of toy_argv = (1 # 100)%Q ∧
  truediv 1 (reg_of toy_argv) = Ok (1 / reg_of toy_argv)%Q ∧
  EvFit (LogisticRegression (1 / reg_of toy_argv) "liblinear")
    (a_X_train toy_datastore_answers) (a_y_train toy_datastore_answers)
    ∈ new_events (datastore_script (P := toy_platform) toy_argv) (toy_world 7).
Proof.
  destruct (regularization_wiring (P := toy_platform) toy_argv (toy_world 7)
              _ _ _ _ toy_datastore_ok)
    as (_ & Hdefault & Hdiv & _ & _ & Hfit & _).
  split; [exact (Hdefault eq_refl)|]. split; [exact Hdiv|exact Hfit].
Defined.



Lemma toy_split_sizes : split_sizes (P := toy_platform).
Proof.
  intros r test_size X y X_train X_test y_train y_test. cbn. unfold toy_split.
  set (c := Qceiling (test_size * inject_Z (Z.of_nat (length X)))).
  destruct (0 <=? c) eqn:Hc; [|done].
  destruct (Z.to_nat c <=? length X)%nat eqn:Hn; [|done].
  destruct (0 <? length X)%nat; [|done]. cbn. intros [= _ <- _ _].
  apply Z.leb_le in Hc. apply Nat.leb_le in Hn.
  rewrite length_take, length_rotate. lia.
Qed.




Lemma toy_mixed_reads :
  reads_ok (P := toy_platform) (Some "mixed") ["a.csv"] ["mixed/a.csv"] [toy_frame_a].
Proof. split; repeat constructor. Qed.

Lemma toy_unlabelled_reads :
  reads_ok (P := toy_platform) (Some "unlabelled") ["c.csv"] ["unlabelled/c.csv"]
    [toy_frame_c].
Proof. split; repeat constructor. Qed.

Lemma toy_frame_c_unlabelled : "Diabetic" ∉ columns toy_frame_c.
Proof. cbn. unfold feature_columns. rewrite !not_elem_of_cons. by repeat split; try apply not_elem_of_nil. Qed.

(** An entry that is not a CSV file does not by itself make loading
    fail.  The folder [notes] holds the two CSV files and [notes.txt], a
    file of one line of text; [read_csv] reads it as a frame of one
    column and no record, the frames are concatenated, and the script
    returns with the model saved. *)
Lemma text_entry_is_read :
  os_listdir (Platform := toy_notes) (Some "notes")
  = Ok ["a.csv"; "b.csv"; "notes.txt"] ∧
  pd_read_csv (Platform := toy_notes) "notes/notes.txt"
  = Ok {| columns := ["retrain the model on Monday"]; records := [] |} ∧
  EvReadCsv "notes/notes.txt"
    ∈ trace (datastore_script (P := toy_notes) toy_notes_argv (toy_start toy_notes 7)).2 ∧
  (datastore_script (P := toy_notes) toy_notes_argv (toy_start toy_notes 7)).1 = Ok tt ∧
  is_Some (files (datastore_script (P := toy_notes) toy_notes_argv
                    (toy_start toy_notes 7)).2 !! "outputs/diabetes_model.pkl").
Proof.
  split; [reflexivity|]. split; [reflexivity|].
  split; [|split; [vm_compute; reflexivity|]].
  - apply list_elem_of_lookup. exists 6%nat. vm_compute. reflexivity.
  - eexists. vm_compute. reflexivity.
Qed.

Lemma features_label_and_loading_witness :
  EvSplit (a_X toy_datastore_answers) (a_y toy_datastore_answers) (3 # 10)%Q (Some 0)
    ∈ new_events (datastore_script (P := toy_platform) toy_argv) (toy_world 7) ∧
  EvSplit (a_X toy_ten_answers) (a_y toy_ten_answers) (3 # 10)%Q (Some 0)
    ∈ new_events (tree_script (P := toy_ten)) (toy_start toy_ten 7) ∧
  at_column toy_frame_a "PlasmaGlucose" [1; 85; 66; 29; 0; 133 # 5; 7 # 20; 31; 0]%Q
  = 85%Q ∧
  (datastore_script (P := toy_platform) toy_mixed_argv (toy_world 7)).1
  = Raise (LibraryError "pandas.read_csv") ∧
  ∃ c1, c1 ∈ needed_columns ∧ (c1 ∉ columns toy_frame_c) ∧
        (datastore_script (P := toy_platform) toy_unlabelled_argv (toy_world 7)).1
        = Raise (KeyError c1).
Proof.
  destruct (features_label_and_loading (P := toy_platform))
    as (Hcell & Hd & _ & Hread & Hcolumn).
  destruct (features_label_and_loading (P := toy_ten)) as (_ & _ & Ht & _).
  destruct (Hd toy_argv (toy_world 7) _ _ _ _ toy_datastore_ok) as (_ & _ & Hsplit & _).
  destruct (Ht (toy_start toy_ten 7) _ _ _ _ _ (toy_ten_tree_ok 7))
    as (_ & _ & _ & _ & Hsplit_tree).
  split; [exact Hsplit|]. split; [exact Hsplit_tree|]. split; [|split].
  - apply (Hcell toy_frame_a "PlasmaGlucose" 1%nat); [|reflexivity].
    split; [reflexivity|]. intros i Hi. assert (i = 0%nat) as -> by lia. discriminate.
  - apply (Hread toy_mixed_argv (toy_world 7) ["a.csv"] "notes.bin" ["b.csv"]
             ["mixed/a.csv"] [toy_frame_a] "mixed/notes.bin").
    + reflexivity.
    + exact toy_mixed_reads.
    + reflexivity.
    + reflexivity.
  - apply (Hcolumn toy_unlabelled_argv (toy_world 7) ["c.csv"] ["unlabelled/c.csv"]
             [toy_frame_c] toy_frame_c "Diabetic").
    + reflexivity.
    + exact toy_unlabelled_reads.
    + reflexivity.
    + unfold needed_columns. apply elem_of_app. right. apply list_elem_of_here.
    + exact toy_frame_c_unlabelled.
Defined.

Example mixed_folder_fails_at_second_entry :
  trace (datastore_script (P := toy_platform) toy_mixed_argv (toy_world 7)).2
  = [EvParseArgs toy_mixed_argv; EvGetContext;
     EvPrint [PStr "Loading data from"; PStr "mixed"];
     EvListdir (Some "mixed"); EvReadCsv "mixed/a.csv";
     EvReadCsv "mixed/notes.bin"].
Proof. vm_compute. reflexivity. Qed.

Example unlabelled_folder_raises_key_error :
  (datastore_script (P := toy_platform) toy_unlabelled_argv (toy_world 7)).1
  = Raise (KeyError "Diabetic").
Proof. vm_compute. reflexivity. Qed.

End TrainingFacts.

(** * Further facts *)

(** ** The scoring service: [init], and [run] around the scoring *)

Module ServiceMore.
Import Service ServiceFacts.

Section Facts.
Context `{L : Libs}.

Lemma init_ok (w : world) path m :
  get_model_path "diabetes_model" = Ok path →
  joblib_load path = Ok m →
  init w = (Ok tt, {| model := Some m; stdout := stdout w |}).
Proof.
  intros Hpath Hload. unfold init.
  erewrite bind_ok by (unfold lift; rewrite Hpath; reflexivity).
  erewrite bind_ok by (unfold lift; rewrite Hload; reflexivity).
  reflexivity.
Qed.

(** X1.  [init] followed by [run]: whatever was bound to [model] before
    (nothing, or another model), the request is scored by the model that
    [joblib.load] returned for the path of ['diabetes_model'], and that
    model stays bound. *)
Theorem init_then_run (w : world) path m raw request data arr preds :
  get_model_path "diabetes_model" = Ok path →
  joblib_load path = Ok m →
  json_loads raw = Ok request →
  getitem request "data" = Ok data →
  np_array data = Ok arr →
  predict m arr = Ok preds →
  Forall (λ p, p = 0 ∨ p = 1) preds →
  (bind init (λ _, run raw) w).1
  = Ok (json_dumps (JList (JStr <$> (wrapped <$> preds)))) ∧
  model (bind init (λ _, run raw) w).2 = Some m.
Proof.
  intros Hpath Hload Hj Hd Ha Hp Hbin.
  rewrite (bind_ok _ _ _ _ _ (init_ok w path m Hpath Hload)).
  rewrite run_keeps_model. split; [|done].
  erewrite run_scored; [|done|exact Hj|exact Hd|exact Ha|exact Hp]. cbv zeta.
  rewrite loop_ok; [done|]. eapply Forall_impl; [exact Hbin|]. cbn. lia.
Qed.

(** X2.  When the model path cannot be resolved or the file cannot be
    loaded, [init] raises the library's exception and rebinds nothing:
    the module state is as before. *)
Theorem init_failure (w : world) e :
  (get_model_path "diabetes_model" = Raise e ∨
   ∃ path, get_model_path "diabetes_model" = Ok path ∧ joblib_load path = Raise e) →
  init w = (Raise e, w).
Proof.
  intros [Hpath|(path & Hpath & Hload)]; unfold init.
  - erewrite bind_raise; [done|]. unfold lift. by rewrite Hpath.
  - erewrite bind_ok by (unfold lift; rewrite Hpath; reflexivity).
    erewrite bind_raise; [done|]. unfold lift. by rewrite Hload.
Qed.

Lemma run_name_error (w : world) raw request data arr :
  model w = None →
  json_loads raw = Ok request →
  getitem request "data" = Ok data →
  np_array data = Ok arr →
  run raw w = (Raise (NameError "model"), w).
Proof.
  intros Hm Hj Hd Ha. unfold run.
  erewrite bind_ok by (unfold lift; rewrite Hj; reflexivity).
  erewrite bind_ok by (unfold lift; rewrite Hd; reflexivity).
  erewrite bind_ok by (unfold lift; rewrite Ha; reflexivity).
  erewrite bind_raise; [done|]. unfold global_model. by rewrite Hm.
Qed.

(** X3.  A request that arrives before [init] has bound [model]: once its
    JSON is decoded, its ['data'] found and made an array, [run] raises
    NameError for [model]; nothing is printed and nothing is bound. *)
Theorem run_without_model (w : world) raw request data arr :
  model w = None →
  json_loads raw = Ok request →
  getitem request "data" = Ok data →
  np_array data = Ok arr →
  run raw w = (Raise (NameError "model"), w) ∧
  stdout (run raw w).2 = stdout w ∧ model (run raw w).2 = None.
Proof.
  intros Hm Hj Hd Ha. rewrite (run_name_error w raw request data arr Hm Hj Hd Ha).
  split; [done|]. split; [done|exact Hm].
Qed.

(** X4.  Once the model has answered, [run] prints exactly one line, the
    data and the predictions, before it looks any class name up: the
    line is in the output also when a label is out of range and [run]
    raises IndexError. *)
Theorem request_is_logged (w : world) m raw request data arr preds :
  model w = Some m →
  json_loads raw = Ok request →
  getitem request "data" = Ok data →
  np_array data = Ok arr →
  predict m arr = Ok preds →
  stdout (run raw w).2 = stdout w ++ [log_line data preds] ∧
  ((run raw w).1 = Raise IndexError ∨
   (run raw w).1 = Ok (json_dumps (JList (JStr <$> (wrapped <$> preds))))).
Proof.
  intros Hm Hj Hd Ha Hp.
  erewrite run_scored; [|exact Hm|exact Hj|exact Hd|exact Ha|exact Hp]. cbv zeta.
  match goal with |- context [for_each preds labelled [] ?w0] =>
    pose proof (loop_world preds [] w0) as Hw;
    destruct (decide (Exists (λ p, p < -2 ∨ 1 < p) preds)) as [Hbad|Hfine];
      [rewrite (loop_raise preds [] w0 Hbad) in Hw |- *
      |assert (Forall (λ p, -2 ≤ p ≤ 1) preds) as Hrange;
         [apply not_Exists_Forall in Hfine; [|intros p; cbn; apply _];
          eapply Forall_impl; [exact Hfine|cbn; lia]|];
       rewrite (loop_ok preds [] w0 Hrange) in Hw |- *]
  end; cbn; split; auto.
Qed.

(** X5.  Whatever the libraries do, a value [run] returns is the JSON
    encoding of a list holding nothing but the two class names, one per
    prediction of the bound model; [run] returns in no other way. *)
Theorem run_returns_only_class_names (w : world) raw s :
  (run raw w).1 = Ok s →
  ∃ m request data arr preds labels,
    model w = Some m ∧
    json_loads raw = Ok request ∧
    getitem request "data" = Ok data ∧
    np_array data = Ok arr ∧
    predict m arr = Ok preds ∧
    s = json_dumps (JList (JStr <$> labels)) ∧
    length labels = length preds ∧
    Forall (λ l, l = "not-diabetic" ∨ l = "diabetic") labels.
Proof.
  intros Hrun.
  destruct (json_loads raw) as [request|e] eqn:Hj; cycle 1.
  { unfold run in Hrun. erewrite bind_raise in Hrun; [done|].
    unfold lift. by rewrite Hj. }
  destruct (getitem request "data") as [data|e] eqn:Hd; cycle 1.
  { unfold run in Hrun.
    erewrite bind_ok in Hrun by (unfold lift; rewrite Hj; reflexivity).
    erewrite bind_raise in Hrun; [done|]. unfold lift. by rewrite Hd. }
  destruct (np_array data) as [arr|e] eqn:Ha; cycle 1.
  { unfold run in Hrun.
    erewrite bind_ok in Hrun by (unfold lift; rewrite Hj; reflexivity).
    erewrite bind_ok in Hrun by (unfold lift; rewrite Hd; reflexivity).
    erewrite bind_raise in Hrun; [done|]. unfold lift. by rewrite Ha. }
  destruct (model w) as [m|] eqn:Hm; cycle 1.
  { by rewrite (run_name_error w raw request data arr Hm Hj Hd Ha) in Hrun. }
  destruct (predict m arr) as [preds|e] eqn:Hp; cycle 1.
  { unfold run in Hrun.
    erewrite bind_ok in Hrun by (unfold lift; rewrite Hj; reflexivity).
    erewrite bind_ok in Hrun by (unfold lift; rewrite Hd; reflexivity).
    erewrite bind_ok in Hrun by (unfold lift; rewrite Ha; reflexivity).
    erewrite bind_ok in Hrun by (unfold global_model; rewrite Hm; reflexivity).
    erewrite bind_raise in Hrun; [done|]. unfold lift. by rewrite Hp. }
  erewrite run_scored in Hrun; [|exact Hm|exact Hj|exact Hd|exact Ha|exact Hp].
  cbv zeta in Hrun.
  destruct (decide (Exists (λ p, p < -2 ∨ 1 < p) preds)) as [Hbad|Hfine].
  { by rewrite loop_raise in Hrun. }
  assert (Forall (λ p, -2 ≤ p ≤ 1) preds) as Hrange.
  { apply not_Exists_Forall in Hfine; [|intros p; cbn; apply _].
    eapply Forall_impl; [exact Hfine|cbn; lia]. }
  rewrite loop_ok in Hrun by done. cbn in Hrun. injection Hrun as <-.
  exists m, request, data, arr, preds, (wrapped <$> preds).
  repeat (split; [done|]). split; [by rewrite length_fmap|].
  apply Forall_fmap, Forall_forall. intros p _. unfold wrapped. cbn.
  destruct ((p =? 0) || (p =? -2)); auto.
Qed.

End Facts.

Lemma init_then_run_witness :
  (bind (init (L := toy_libs)) (λ _, run toy_request) (toy_world three_class_rule)).1
  = Ok (toy_dumps (JList (JStr <$> ["not-diabetic"; "diabetic"]))) ∧
  model (bind (init (L := toy_libs)) (λ _, run toy_request)
           (toy_world three_class_rule)).2 = Some glucose_rule.
Proof.
  apply (init_then_run (L := toy_libs) (toy_world three_class_rule)
           "azureml-models/diabetes_model" glucose_rule toy_request
           (JDict {[ "data" := JList toy_rows ]}) (JList toy_rows)
           (toy_row <$> toy_rows) [0; 1]).
  - reflexivity.
  - reflexivity.
  - vm_compute. reflexivity.
  - vm_compute. reflexivity.
  - reflexivity.
  - vm_compute. reflexivity.
  - constructor; [left; reflexivity|].
    constructor; [right; reflexivity|]. constructor.
Defined.

Lemma init_failure_witness :
  init (L := toy_libs_unloadable) (toy_fresh_world toy_libs_unloadable)
  = (Raise (LibraryError "joblib.load"), toy_fresh_world toy_libs_unloadable).
Proof.
  apply (init_failure (L := toy_libs_unloadable)).
  right. exists "azureml-models/diabetes_model". split; reflexivity.
Defined.

Lemma run_without_model_witness :
  run (L := toy_libs) toy_request (toy_fresh_world toy_libs)
  = (Raise (NameError "model"), toy_fresh_world toy_libs) ∧
  stdout (run (L := toy_libs) toy_request (toy_fresh_world toy_libs)).2 = [] ∧
  model (run (L := toy_libs) toy_request (toy_fresh_world toy_libs)).2 = None.
Proof.
  apply (run_without_model (L := toy_libs) (toy_fresh_world toy_libs) toy_request
           (JDict {[ "data" := JList toy_rows ]}) (JList toy_rows)
           (toy_row <$> toy_rows)).
  - reflexivity.
  - vm_compute. reflexivity.
  - vm_compute. reflexivity.
  - reflexivity.
Defined.

Lemma request_is_logged_witness :
  stdout (run (L := toy_libs) toy_request (toy_world three_class_rule)).2
  = ["Data:<data> - Predictions:<predictions>"] ∧
  ((run (L := toy_libs) toy_request (toy_world three_class_rule)).1
   = Raise IndexError ∨
   (run (L := toy_libs) toy_request (toy_world three_class_rule)).1
   = Ok (toy_dumps (JList (JStr <$> (wrapped <$> [0; 2]))))).
Proof.
  apply (request_is_logged (L := toy_libs) (toy_world three_class_rule)
           three_class_rule toy_request (JDict {[ "data" := JList toy_rows ]})
           (JList toy_rows) (toy_row <$> toy_rows) [0; 2]).
  - reflexivity.
  - vm_compute. reflexivity.
  - vm_compute. reflexivity.
  - reflexivity.
  - vm_compute. reflexivity.
Defined.

Lemma run_returns_only_class_names_witness :
  ∃ m request data arr preds labels,
    model (toy_world glucose_rule) = Some m ∧
    json_loads (Libs := toy_libs) toy_request = Ok request ∧
    getitem request "data" = Ok data ∧
    np_array (Libs := toy_libs) data = Ok arr ∧
    predict (Libs := toy_libs) m arr = Ok preds ∧
    toy_dumps (JList (JStr <$> ["not-diabetic"; "diabetic"]))
    = toy_dumps (JList (JStr <$> labels)) ∧
    length labels = length preds ∧
    Forall (λ l, l = "not-diabetic" ∨ l = "diabetic") labels.
Proof.
  apply (run_returns_only_class_names (L := toy_libs) (toy_world glucose_rule)
           toy_request).
  vm_compute. reflexivity.
Defined.

End ServiceMore.

(** ** The training scripts: bounds, early stops and what a failed run leaves *)

Module TrainingMore.
Import Training TrainingFacts.

Section Facts.
Context `{P : Platform}.

Ltac prim :=
  cbv [parse_args get_context print listdir read_csv concat input_dataframe
       train_test_split fit predict predict_proba average roc_auc_score
       roc_curve plt_figure current_figure on_current_figure plt_plot
       plt_xlabel plt_ylabel plt_title plt_show log log_image makedirs dump
       complete bind emit modify lift gets ret raise set_figures];
  cbn [trace global_rng dirs files scalars images figures gcf completed].

Ltac step_with H :=
  erewrite bind_ok; [|solve [prim; rewrite ?H; reflexivity]]; cbv beta iota.

Ltac step := erewrite bind_ok; [|solve [prim; reflexivity]]; cbv beta iota.

Ltac stop_with H :=
  erewrite bind_raise; [|solve [prim; rewrite ?H; reflexivity]].

(** **** The accuracy *)

Lemma count_true_le (bs : list bool) : (count_true bs ≤ length bs)%nat.
Proof. unfold count_true. apply length_filter. Qed.

Lemma count_true_all (bs : list bool) :
  count_true bs = length bs ↔ Forall (λ b, b = true) bs.
Proof.
  unfold count_true. induction bs as [|b bs IH]; [by split|].
  rewrite filter_cons. destruct b.
  - rewrite decide_True by done. cbn [length]. rewrite Forall_cons.
    split; [intros [= H]; split; [done|by apply IH]|intros [_ H]; f_equal; by apply IH].
  - rewrite decide_False by done. cbn [length]. split.
    + intros H. pose proof (length_filter (λ b, b = true) bs). lia.
    + intros H. by apply Forall_cons in H as [? _].
Qed.

Lemma np_average_bounds (bs : list bool) : (0 <= np_average bs <= 1)%Q.
Proof.
  unfold np_average. pose proof (count_true_le bs) as Hle.
  destruct bs as [|b bs]; [by cbn|].
  set (c := count_true (b :: bs)) in *. set (n := length (b :: bs)) in *.
  assert (0 < n)%nat as Hn by (subst n; cbn; lia).
  assert (0 < inject_Z (Z.of_nat n))%Q as Hpos.
  { change 0%Q with (inject_Z 0). rewrite <- Zlt_Qlt. lia. }
  split.
  - apply Qle_shift_div_l; [done|]. rewrite Qmult_0_l.
    change 0%Q with (inject_Z 0). rewrite <- Zle_Qle. lia.
  - apply Qle_shift_div_r; [done|]. rewrite Qmult_1_l. rewrite <- Zle_Qle. lia.
Qed.

Lemma np_average_one (bs : list bool) :
  bs ≠ [] → (np_average bs == 1)%Q ↔ Forall (λ b, b = true) bs.
Proof.
  intros Hne. rewrite <- count_true_all. unfold np_average.
  destruct bs as [|b bs]; [done|].
  generalize (count_true (b :: bs)) as c. intros c. cbn [length].
  unfold Qeq, Qdiv, Qmult, Qinv, inject_Z. cbn [Qnum Qden].
  change (Z.of_nat (S (length bs))) with (Z.pos (Pos.of_succ_nat (length bs))).
  cbn [Qnum Qden]. rewrite Pos.mul_1_l, !Z.mul_1_r, Z.mul_1_l.
  rewrite Zpos_P_of_succ_nat. lia.
Qed.


Lemma all_hits (a b : vector) :
  length a = length b →
  Forall (λ h, h = true) (zip_with Qeq_bool a b) ↔ Forall2 Qeq a b.
Proof.
  revert b. induction a as [|x a IH]; intros [|y b] Hlen; try done.
  cbn [zip_with]. rewrite Forall_cons, Forall2_cons, Qeq_bool_iff.
  rewrite IH; [done|]. cbn in Hlen. lia.
Qed.

Lemma accuracy_facts (a : answers) :
  length (a_y_hat a) = length (a_y_test a) → a_y_test a ≠ [] →
  (0 <= np_average (hits a) <= 1)%Q ∧
  ((np_average (hits a) == 1)%Q ↔ Forall2 Qeq (a_y_hat a) (a_y_test a)).
Proof.
  intros Hlen Hne. split; [apply np_average_bounds|].
  rewrite np_average_one, (all_hits _ _ Hlen); [done|].
  unfold hits. intros Hnil. apply (f_equal length) in Hnil.
  rewrite length_zip_with, Hlen, Nat.min_id in Hnil.
  by destruct (a_y_test a).
Qed.

(** X6.  On a run of either script where every library call answers and
    the test set is not empty, the accuracy the script logs lies between
    0 and 1, and it is 1 exactly when the prediction equals the label on
    every test row. *)
Theorem accuracy_in_unit_interval :
  (∀ argv (w : world) all_files paths frames a,
     datastore_ok argv w all_files paths frames a →
     a_y_test a ≠ [] →
     ∃ va,
       scalars (datastore_script argv w).2
       = scalars w ++ [("Regularization Rate", reg_of argv);
                       ("Accuracy", va); ("AUC", a_auc a)] ∧
       (0 <= va <= 1)%Q ∧
       ((va == 1)%Q ↔ Forall2 Qeq (a_y_hat a) (a_y_test a))) ∧
  (∀ (w : world) ds b fpr tpr thresholds,
     tree_ok w ds b fpr tpr thresholds →
     a_y_test b ≠ [] →
     ∃ vb,
       scalars (tree_script w).2
       = scalars w ++ [("Accuracy", vb); ("AUC", a_auc b)] ∧
       (0 <= vb <= 1)%Q ∧
       ((vb == 1)%Q ↔ Forall2 Qeq (a_y_hat b) (a_y_test b))).
Proof.
  split.
  - intros argv w all_files paths frames a Hd Ha.
    exists (np_average (hits a)).
    rewrite (datastore_run _ _ _ _ _ _ Hd). split; [done|].
    exact (accuracy_facts a (same_length _ _ _ (got_trained _ _ _ _ _ _ Hd)) Ha).
  - intros w ds b fpr tpr thresholds Ht Hb.
    exists (np_average (hits b)).
    rewrite (tree_run _ _ _ _ _ _ Ht). split; [done|].
    exact (accuracy_facts b (same_length _ _ _ (got_tree _ _ _ _ _ _ Ht)) Hb).
Qed.

(** **** Runs that stop early *)

Lemma steps_of_reads (paths : list string) (s : step) :
  s ≠ LoadData → Forall (λ e, step_of e ≠ s) (EvReadCsv <$> paths).
Proof. intros Hs. apply Forall_fmap, Forall_forall. intros p _. cbn. congruence. Qed.

(** X7.  With a regularization rate of zero the datastore script still
    loads and splits the data and logs the rate, then raises
    ZeroDivisionError at [1 / reg]: nothing is fitted, no metric is
    logged, no file is written and the run is not completed. *)
Theorem zero_regularization argv (w : world) all_files paths frames df
    X y X_train X_test y_train y_test :
  datastore_loaded argv all_files paths frames df →
  split_ok df X y X_train X_test y_train y_test →
  (reg_of argv == 0)%Q →
  (datastore_script argv w).1 = Raise ZeroDivisionError ∧
  scalars (datastore_script argv w).2
  = scalars w ++ [("Regularization Rate", reg_of argv)] ∧
  files (datastore_script argv w).2 = files w ∧
  completed (datastore_script argv w).2 = completed w ∧
  Forall (λ e, step_of e ≠ Fit) (new_events (datastore_script argv) w).
Proof.
  intros [Hfiles [Hp Hr] Hdf] [HX Hy Hsplit] Hzero.
  assert (∃ w', datastore_script argv w = (Raise ZeroDivisionError, w') ∧
                scalars w' = scalars w ++ [("Regularization Rate", reg_of argv)] ∧
                files w' = files w ∧ completed w' = completed w ∧
                trace w' = trace w ++
                  ([EvParseArgs argv; EvGetContext;
                    EvPrint [PStr "Loading data from";
                             pyobj_of_folder (cli_data_folder argv)];
                    EvListdir (cli_data_folder argv)] ++ (EvReadCsv <$> paths) ++
                   [EvConcat frames; EvSplit X y (3 # 10)%Q (Some 0);
                    EvPrint [PStr "Training a logistic regression model with regularization rate of";
                             PNum (reg_of argv)];
                    EvLog "Regularization Rate" (reg_of argv)]))
    as (w' & Hrun & Hs & Hf & Hc & Htr).
  { eexists. split.
    - unfold datastore_script.
      step. step. step. cbn [reg_rate data_folder]. step_with Hfiles.
      erewrite bind_ok; [|unfold read_all; by apply read_all_ok]. cbn [app].
      step_with Hdf. step_with HX. step_with Hy. step_with Hsplit. step. step.
      erewrite bind_raise; [reflexivity|].
      prim. fold (reg_of argv). rewrite truediv_zero by done. reflexivity.
    - cbn [trace scalars files completed]. unfold np_float. fold (reg_of argv).
      repeat split. rewrite <- !app_assoc. reflexivity. }
  rewrite (new_events_app _ _ _ (eq_trans (f_equal (λ r, trace r.2) Hrun) Htr)).
  rewrite Hrun. cbn [fst snd]. repeat (split; [done|]).
  rewrite !Forall_app. split; [by repeat constructor|].
  split; [by apply steps_of_reads|by repeat constructor].
Qed.

(** X8.  Without [--data-folder] the folder is [None]: the listing is
    that of the current directory, and when it has an entry the script
    raises TypeError on joining [None] to it, before any file is read. *)
Theorem no_data_folder argv (w : world) f rest :
  cli_data_folder argv = None →
  os_listdir None = Ok (f :: rest) →
  (datastore_script argv w).1 = Raise TypeError ∧
  new_events (datastore_script argv) w
  = [EvParseArgs argv; EvGetContext;
     EvPrint [PStr "Loading data from"; PNone]; EvListdir None] ∧
  scalars (datastore_script argv w).2 = scalars w ∧
  files (datastore_script argv w).2 = files w.
Proof.
  intros Hnone Hlist.
  assert (∃ w', datastore_script argv w = (Raise TypeError, w') ∧
                scalars w' = scalars w ∧ files w' = files w ∧
                trace w' = trace w ++
                  [EvParseArgs argv; EvGetContext;
                   EvPrint [PStr "Loading data from"; PNone]; EvListdir None])
    as (w' & Hrun & Hs & Hf & Htr).
  { eexists. split.
    - unfold datastore_script.
      step. step. step. cbn [reg_rate data_folder]. rewrite Hnone.
      step_with Hlist. unfold read_all. cbn [for_each].
      erewrite bind_raise; [reflexivity|].
      erewrite bind_raise; [reflexivity|].
      erewrite bind_raise; [reflexivity|]. reflexivity.
    - cbn [trace scalars files pyobj_of_folder]. repeat split.
      rewrite <- !app_assoc. reflexivity. }
  rewrite (new_events_app _ _ _ (eq_trans (f_equal (λ r, trace r.2) Hrun) Htr)).
  rewrite Hrun. done.
Qed.

Lemma read_all_stops folder (pre post : list string) f (paths : list string)
    (frames : list frame) p e (w : world) :
  reads_ok folder pre paths frames →
  path_join folder f = Ok p →
  pd_read_csv p = Raise e →
  read_all folder (pre ++ f :: post) w
  = (Raise e,
     {| trace := trace w ++ (EvReadCsv <$> (paths ++ [p]));
        global_rng := global_rng w; dirs := dirs w; files := files w;
        scalars := scalars w; images := images w; figures := figures w;
        gcf := gcf w; completed := completed w |}).
Proof.
  intros [Hp Hr] Hf He. unfold read_all.
  set (body := λ (acc : list frame) (csv_file : string), _).
  generalize (@nil frame) as acc0.
  revert frames w Hr. induction Hp as [|f1 p1 pre paths Hf1 _ IH];
    intros frames w Hr acc0.
  - cbn [app for_each]. unfold body at 1.
    erewrite bind_raise; [reflexivity|]. step_with Hf.
    erewrite bind_raise; [reflexivity|]. prim. rewrite He. reflexivity.
  - inversion Hr as [|? df ? frames1 Hdf Hr1]; subst. cbn [app for_each].
    erewrite bind_ok; [|unfold body; step_with Hf1; step_with Hdf; reflexivity].
    rewrite (IH _ _ Hr1).
    cbn [trace global_rng dirs files scalars images figures gcf completed fmap
         list_fmap app].
    rewrite <- app_assoc. reflexivity.
Qed.

(** X9.  The datastore script reads the entries of the folder in listing
    order and stops at the first one [read_csv] refuses: the script
    raises that error, the entries after it are never read, and nothing
    is concatenated, logged or written. *)
Theorem reading_stops_at_first_failure argv (w : world) pre f post paths frames p e :
  os_listdir (cli_data_folder argv) = Ok (pre ++ f :: post) →
  reads_ok (cli_data_folder argv) pre paths frames →
  path_join (cli_data_folder argv) f = Ok p →
  pd_read_csv p = Raise e →
  (datastore_script argv w).1 = Raise e ∧
  new_events (datastore_script argv) w
  = [EvParseArgs argv; EvGetContext;
     EvPrint [PStr "Loading data from"; pyobj_of_folder (cli_data_folder argv)];
     EvListdir (cli_data_folder argv)] ++ (EvReadCsv <$> (paths ++ [p])) ∧
  scalars (datastore_script argv w).2 = scalars w ∧
  files (datastore_script argv w).2 = files w.
Proof.
  intros Hfiles Hreads Hf He.
  assert (∃ w', datastore_script argv w = (Raise e, w') ∧
                scalars w' = scalars w ∧ files w' = files w ∧
                trace w' = trace w ++
                  ([EvParseArgs argv; EvGetContext;
                    EvPrint [PStr "Loading data from";
                             pyobj_of_folder (cli_data_folder argv)];
                    EvListdir (cli_data_folder argv)]
                   ++ (EvReadCsv <$> (paths ++ [p]))))
    as (w' & Hrun & Hs & Hf' & Htr).
  { eexists. split.
    - unfold datastore_script.
      step. step. step. cbn [reg_rate data_folder]. step_with Hfiles.
      erewrite bind_raise; [reflexivity|].
      by apply (read_all_stops _ pre post f paths frames p e).
    - cbn [trace scalars files]. repeat split.
      rewrite <- !app_assoc. reflexivity. }
  rewrite (new_events_app _ _ _ (eq_trans (f_equal (λ r, trace r.2) Hrun) Htr)).
  rewrite Hrun. done.
Qed.

Lemma column1_short (scores : matrix) :
  Exists (λ row, (length row < 2)%nat) scores → column1 scores = Raise IndexError.
Proof.
  induction scores as [|row rest IH]; intros H; [by apply Exists_nil in H|].
  cbn [column1]. destruct (row !! 1%nat) as [x|] eqn:Hrow; [|done].
  apply Exists_cons in H as [H|H].
  - apply lookup_lt_Some in Hrow. lia.
  - by rewrite (IH H).
Qed.

(** X10.  When [predict_proba] answers with rows of fewer than two
    columns (a classifier that saw one class only), the decision-tree
    script raises IndexError at [y_scores[:,1]]: the accuracy has been
    logged, the AUC has not, nothing is plotted and no model is saved. *)
Theorem one_class_scores (w : world) ds df X y X_train X_test y_train y_test
    m y_hat scores :
  tree_loaded ds df →
  split_ok df X y X_train X_test y_train y_test →
  sk_fit DecisionTreeClassifier (global_rng w) X_train y_train = Ok m →
  sk_predict m X_test = Ok y_hat →
  length y_hat = length y_test →
  sk_predict_proba m X_test = Ok scores →
  Exists (λ row, (length row < 2)%nat) scores →
  (tree_script w).1 = Raise IndexError ∧
  scalars (tree_script w).2
  = scalars w ++ [("Accuracy", np_average (zip_with Qeq_bool y_hat y_test))] ∧
  images (tree_script w).2 = images w ∧
  files (tree_script w).2 = files w ∧
  completed (tree_script w).2 = completed w.
Proof.
  intros [Hds Hdf] [HX Hy Hsplit] Hfit Hhat Hlen Hscores Hshort.
  assert (∃ w', tree_script w = (Raise IndexError, w') ∧
                scalars w' = scalars w ++
                  [("Accuracy", np_average (zip_with Qeq_bool y_hat y_test))] ∧
                images w' = images w ∧ files w' = files w ∧
                completed w' = completed w)
    as (w' & Hrun & Hrest).
  { eexists. split.
    - unfold tree_script. step. step.
      erewrite bind_ok; [|prim; rewrite Hds; prim; rewrite Hdf; reflexivity].
      step_with HX. step_with Hy. step_with Hsplit. step.
      step_with Hfit. step_with Hhat.
      erewrite bind_ok; [|prim; rewrite np_equal_same_length by done; reflexivity].
      step. step. step. step_with Hscores.
      erewrite bind_raise; [reflexivity|].
      prim. rewrite column1_short by done. reflexivity.
    - cbn [scalars images files completed]. done. }
  rewrite Hrun. split; [done|exact Hrest].
Qed.

(** X11.  When the run has no input dataset named ['diabetes'], the
    decision-tree script raises KeyError for that name right after its
    first print: no dataframe is fetched and nothing is logged. *)
Theorem missing_input_dataset (w : world) :
  run_input_datasets !! "diabetes" = None →
  (tree_script w).1 = Raise (KeyError "diabetes") ∧
  new_events tree_script w = [EvGetContext; EvPrint [PStr "Loading Data..."]] ∧
  scalars (tree_script w).2 = scalars w ∧
  files (tree_script w).2 = files w.
Proof.
  intros Hnone.
  assert (∃ w', tree_script w = (Raise (KeyError "diabetes"), w') ∧
                scalars w' = scalars w ∧ files w' = files w ∧
                trace w' = trace w ++
                  [EvGetContext; EvPrint [PStr "Loading Data..."]])
    as (w' & Hrun & Hs & Hf & Htr).
  { eexists. split.
    - unfold tree_script. step. step.
      erewrite bind_raise; [reflexivity|].
      unfold input_dataframe. rewrite Hnone. reflexivity.
    - cbn [trace scalars files]. repeat split.
      rewrite <- !app_assoc. reflexivity. }
  rewrite (new_events_app _ _ _ (eq_trans (f_equal (λ r, trace r.2) Hrun) Htr)).
  rewrite Hrun. done.
Qed.

(** X12.  When the dataframe of the input dataset lacks one of the nine
    columns, the decision-tree script raises KeyError for a column that
    is missing. *)
Theorem tree_needs_all_columns (w : world) ds df c :
  tree_loaded ds df →
  c ∈ needed_columns → c ∉ columns df →
  ∃ c1, c1 ∈ needed_columns ∧ (c1 ∉ columns df) ∧
        (tree_script w).1 = Raise (KeyError c1).
Proof. intros [Hds Hdf]. by apply tree_column_missing with ds. Qed.

(** X14.  The decision-tree script draws on a figure of its own.  On a
    run where every library call answers, the figures that were open
    before are unchanged, the new figure is appended and is pyplot's
    current one, and the image logged as "ROC" is that figure in its
    final state: nothing is drawn on it after it is logged. *)
Theorem roc_on_a_new_figure (w : world) ds a fpr tpr thresholds :
  tree_ok w ds a fpr tpr thresholds →
  ∃ fig,
    figures (tree_script w).2 = figures w ++ [fig] ∧
    gcf (tree_script w).2 = Some (length (figures w)) ∧
    images (tree_script w).2 = images w ++ [("ROC", fig)] ∧
    (∀ h old, figures w !! h = Some old → figures (tree_script w).2 !! h = Some old) ∧
    figsize fig = (6, 4)%Q ∧ title fig = "ROC Curve".
Proof.
  intros Ht. exists (roc_figure fpr tpr). rewrite (tree_run _ _ _ _ _ _ Ht).
  cbn [snd tree_final figures gcf images].
  repeat (split; [done|]). split; [|done].
  intros h old Hold. by apply lookup_app_l_Some.
Qed.

(** **** What a failed run leaves behind *)
















End Facts.

(** **** The statements above on the toy platforms *)

Lemma accuracy_in_unit_interval_witness :
  (∃ va,
     scalars (datastore_script (P := toy_platform) toy_argv (toy_world 7)).2
     = [("Regularization Rate", reg_of toy_argv); ("Accuracy", va);
        ("AUC", a_auc toy_datastore_answers)] ∧
     (0 <= va <= 1)%Q) ∧
  (∃ vb,
     scalars (tree_script (P := toy_ten) (toy_start toy_ten 7)).2
     = [("Accuracy", vb); ("AUC", a_auc toy_ten_answers)] ∧
     (0 <= vb <= 1)%Q).
Proof.
  destruct (accuracy_in_unit_interval (P := toy_platform)) as [Hd _].
  destruct (accuracy_in_unit_interval (P := toy_ten)) as [_ Ht].
  split.
  - destruct (Hd toy_argv (toy_world 7) _ _ _ _ toy_datastore_ok)
      as (va & Hlog & Hbounds & _); [vm_compute; discriminate|].
    exists va. split; [exact Hlog|exact Hbounds].
  - destruct (Ht (toy_start toy_ten 7) _ _ _ _ _ (toy_ten_tree_ok 7))
      as (vb & Hlog & Hbounds & _); [vm_compute; discriminate|].
    exists vb. split; [exact Hlog|exact Hbounds].
Defined.

Lemma toy_data_loaded (lam : option Q) :
  datastore_loaded (P := toy_platform)
    {| cli_regularization := lam; cli_data_folder := Some "data" |}
    ["a.csv"; "b.csv"] ["data/a.csv"; "data/b.csv"] toy_frames toy_frame.
Proof. split; [reflexivity| |reflexivity]. split; repeat constructor. Qed.

Lemma toy_split_ok :
  split_ok (P := toy_platform) toy_frame
    (a_X toy_datastore_answers) (a_y toy_datastore_answers)
    (a_X_train toy_datastore_answers) (a_X_test toy_datastore_answers)
    (a_y_train toy_datastore_answers) (a_y_test toy_datastore_answers).
Proof. split; vm_compute; reflexivity. Qed.

Lemma zero_regularization_witness :
  (datastore_script (P := toy_platform) toy_zero_argv (toy_world 7)).1
  = Raise ZeroDivisionError ∧
  scalars (datastore_script (P := toy_platform) toy_zero_argv (toy_world 7)).2
  = [("Regularization Rate", 0%Q)] ∧
  files (datastore_script (P := toy_platform) toy_zero_argv (toy_world 7)).2 = ∅.
Proof.
  destruct (zero_regularization (P := toy_platform) toy_zero_argv (toy_world 7)
              _ _ _ _ _ _ _ _ _ _ (toy_data_loaded (Some 0%Q)) toy_split_ok)
    as (Hrun & Hs & Hf & _).
  - reflexivity.
  - split; [exact Hrun|]. split; [exact Hs|exact Hf].
Defined.

Lemma no_data_folder_witness :
  (datastore_script (P := toy_cwd) toy_no_folder_argv (toy_start toy_cwd 7)).1
  = Raise TypeError ∧
  new_events (datastore_script (P := toy_cwd) toy_no_folder_argv) (toy_start toy_cwd 7)
  = [EvParseArgs toy_no_folder_argv; EvGetContext;
     EvPrint [PStr "Loading data from"; PNone]; EvListdir None].
Proof.
  destruct (no_data_folder (P := toy_cwd) toy_no_folder_argv (toy_start toy_cwd 7)
              "README.md" []) as (Hrun & Hev & _).
  - reflexivity.
  - reflexivity.
  - split; [exact Hrun|exact Hev].
Defined.

Lemma reading_stops_at_first_failure_witness :
  (datastore_script (P := toy_platform) toy_mixed_argv (toy_world 7)).1
  = Raise (LibraryError "pandas.read_csv") ∧
  new_events (datastore_script (P := toy_platform) toy_mixed_argv) (toy_world 7)
  = [EvParseArgs toy_mixed_argv; EvGetContext;
     EvPrint [PStr "Loading data from"; PStr "mixed"]; EvListdir (Some "mixed")]
    ++ (EvReadCsv <$> ["mixed/a.csv"; "mixed/notes.bin"]).
Proof.
  destruct (reading_stops_at_first_failure (P := toy_platform) toy_mixed_argv
              (toy_world 7) ["a.csv"] "notes.bin" ["b.csv"] ["mixed/a.csv"]
              [toy_frame_a] "mixed/notes.bin" (LibraryError "pandas.read_csv"))
    as (Hrun & Hev & _).
  - reflexivity.
  - exact toy_mixed_reads.
  - reflexivity.
  - reflexivity.
  - split; [exact Hrun|exact Hev].
Defined.

Lemma one_class_scores_witness :
  (tree_script (P := toy_one_class) (toy_start toy_one_class 7)).1
  = Raise IndexError ∧
  scalars (tree_script (P := toy_one_class) (toy_start toy_one_class 7)).2
  = [("Accuracy",
      np_average (zip_with Qeq_bool
                    (a_y_hat (computed_answers (P := toy_one_class) toy_frame_a
                                DecisionTreeClassifier 7 0%Q))
                    (a_y_test (computed_answers (P := toy_one_class) toy_frame_a
                                 DecisionTreeClassifier 7 0%Q))))] ∧
  files (tree_script (P := toy_one_class) (toy_start toy_one_class 7)).2 = ∅.
Proof.
  pose (a := computed_answers (P := toy_one_class) toy_frame_a
               DecisionTreeClassifier 7 0%Q).
  destruct (one_class_scores (P := toy_one_class) (toy_start toy_one_class 7)
              toy_frame_a toy_frame_a (a_X a) (a_y a) (a_X_train a) (a_X_test a)
              (a_y_train a) (a_y_test a) (a_model a) (a_y_hat a) (a_scores a))
    as (Hrun & Hs & _ & Hf & _).
  - split; [vm_compute; reflexivity|reflexivity].
  - split; vm_compute; reflexivity.
  - vm_compute. reflexivity.
  - vm_compute. reflexivity.
  - reflexivity.
  - vm_compute. reflexivity.
  - apply Exists_cons_hd. cbn. lia.
  - split; [exact Hrun|]. split; [exact Hs|exact Hf].
Defined.

Lemma missing_input_dataset_witness :
  (tree_script (P := toy_no_dataset) (toy_start toy_no_dataset 7)).1
  = Raise (KeyError "diabetes") ∧
  new_events (tree_script (P := toy_no_dataset)) (toy_start toy_no_dataset 7)
  = [EvGetContext; EvPrint [PStr "Loading Data..."]].
Proof.
  destruct (missing_input_dataset (P := toy_no_dataset) (toy_start toy_no_dataset 7))
    as (Hrun & Hev & _).
  - reflexivity.
  - split; [exact Hrun|exact Hev].
Defined.

Lemma tree_needs_all_columns_witness :
  ∃ c1, c1 ∈ needed_columns ∧ (c1 ∉ columns toy_frame_c) ∧
        (tree_script (P := toy_unlabelled_dataset)
           (toy_start toy_unlabelled_dataset 7)).1 = Raise (KeyError c1).
Proof.
  apply (tree_needs_all_columns (P := toy_unlabelled_dataset)
           (toy_start toy_unlabelled_dataset 7) toy_frame_c toy_frame_c "Diabetic").
  - split; [vm_compute; reflexivity|reflexivity].
  - unfold needed_columns. apply elem_of_app. right. apply list_elem_of_here.
  - exact toy_frame_c_unlabelled.
Defined.

Lemma toy_tree_ok_with_figure :
  tree_ok (P := toy_platform) toy_world_with_figure toy_frame_a toy_tree_answers
    [0; 0; 1]%Q [0; 1; 1]%Q [2; 1; 0]%Q.
Proof.
  split.
  - vm_compute. reflexivity.
  - reflexivity.
  - split; vm_compute; reflexivity.
  - reflexivity.
  - split; reflexivity.
Qed.

Lemma roc_on_a_new_figure_witness :
  ∃ fig,
    figures (tree_script (P := toy_platform) toy_world_with_figure).2
    = [new_figure (1, 1)%Q; fig] ∧
    gcf (tree_script (P := toy_platform) toy_world_with_figure).2 = Some 1%nat ∧
    images (tree_script (P := toy_platform) toy_world_with_figure).2 = [("ROC", fig)].
Proof.
  destruct (roc_on_a_new_figure (P := toy_platform) toy_world_with_figure
              _ _ _ _ _ toy_tree_ok_with_figure)
    as (fig & Hfigs & Hgcf & Himg & _).
  exists fig. split; [exact Hfigs|]. split; [exact Hgcf|exact Himg].
Defined.


Example disk_full_leaves_the_folder :
  dirs (tree_script (P := toy_disk_full) (toy_start toy_disk_full 7)).2
  = {[ "outputs" ]} ∧
  files (tree_script (P := toy_disk_full) (toy_start toy_disk_full 7)).2 = ∅.
Proof. split; vm_compute; reflexivity. Qed.

End TrainingMore.
